(** * go-slo: the JobStatus persistence adapter (database/sql + pgx)

    A shallow embedding of the repository adapter of [package repo]
    (repoDB, its mapper functions [domainToDb], [dbToDomain],
    [rowsToDomain], and its read and write operations) and of the error
    helpers of [errors.go] ([CommonError], [NewCommonError],
    [WrapError]), together with the properties of the specification that
    concern them. *)

From stdpp Require Import base strings list gmap pretty.
From Stdlib Require Import ZArith String Ascii Lia.

Set Warnings "-register-all".

Local Open Scope Z_scope.
Local Open Scope string_scope.

(** ** Text helpers *)

(** The double-quote character, used by the SQL text to delimit mixed-case
    identifiers. *)
Definition dquote : ascii := "034"%char.
Definition tab : string := String "009"%char EmptyString.
Definition newline : string := String "010"%char EmptyString.

(** [quoteIdent "JobId"] is the identifier between double quotes. *)
Definition quoteIdent (name : string) : string :=
  String dquote name ++ String dquote EmptyString.




(** ** Time values

    [time.Time] is kept as the instant (nanoseconds since the Unix epoch)
    together with the offset, in seconds east of UTC, of the location the
    value is presented in; UTC is offset 0. *)
Record Time := mkTime { unixNano : Z; offset : Z }.

#[global] Instance Time_eq_dec : EqDecision Time.
Proof. solve_decision. Defined.

Definition nanosPerSecond : Z := 1000000000.
Definition nanosPerDay : Z := 86400 * nanosPerSecond.

(** [time.Time{}]: January 1, year 1, 00:00:00 UTC. *)
Definition zeroTime : Time := mkTime (-62135596800 * nanosPerSecond) 0.

(** The calendar day (days since the epoch) a time shows in its own
    location: what [t.Date()] determines. *)
Definition dayOf (t : Time) : Z :=
  (unixNano t + offset t * nanosPerSecond) `div` nanosPerDay.

(** Modelled from the spec: [internal.Date] (date.go is not among the
    sources).  A calendar date, stored as a [time.Time] (the adapter
    converts with [time.Time(busDt)]); the record's business date is
    "UTC midnight". *)
Record Date := mkDate { dateTime : Time }.

#[global] Instance Date_eq_dec : EqDecision Date.
Proof. solve_decision. Defined.

(** Modelled from the spec: [Date.AsTime] (date.go is not among the
    sources): the date as the [time.Time] it is stored as. *)
Definition AsTime (d : Date) : Time := dateTime d.

(** Modelled from the spec: [internal.NewDateFromTime] (date.go is not among
    the sources): the calendar date of [t], as UTC midnight of that day. *)
Definition NewDateFromTime (t : Time) : Date :=
  mkDate (mkTime (dayOf t * nanosPerDay) 0).

(** ** Domain record and transfer object *)

Definition JobIdType := string.
Definition JobStatusCodeType := string.

(** [jobStatus.JobStatus], with the fields the adapter reads. *)
Record JobStatus := mkJobStatus {
  ApplicationId : string;
  JobId : JobIdType;
  JobStatusCode : JobStatusCodeType;
  JobStatusTimestamp : Time;
  BusinessDate : Date;
  RunId : string;
  HostId : string
}.

#[global] Instance JobStatus_eq_dec : EqDecision JobStatus.
Proof. solve_decision. Defined.

(** [jobStatus.JobStatus{}] *)
Definition zeroJobStatus : JobStatus :=
  mkJobStatus "" "" "" zeroTime (mkDate zeroTime) "" "".

(** [dtoType.JobStatusDto], with the fields [dbToDomain] fills. *)
Record JobStatusDto := mkJobStatusDto {
  AppId : string;
  dtoJobId : string;
  JobSt : string;
  JobTs : Time;
  BusDt : Date;
  dtoRunId : string;
  HstId : string
}.

#[global] Instance JobStatusDto_eq_dec : EqDecision JobStatusDto.
Proof. solve_decision. Defined.

(** ** Values exchanged with the storage driver *)

(** A value as the driver hands it over or receives it: the JobStatus table
    has text columns, a timestamp column and a date column (both
    [time.Time] on the Go side), and nullable columns can hold NULL. *)
Inductive dbValue :=
| DbText (s : string)
| DbTimestamp (t : Time)
| DbNull.

#[global] Instance dbValue_eq_dec : EqDecision dbValue.
Proof. solve_decision. Defined.

(** [*sql.Rows]: the row the cursor stands on (after [Next] returned true)
    and the rows [Next] is still to deliver before it returns false, be it
    at the end of the result set or because the iteration failed.  The
    adapter never reads [rows.Err()], so the two cases look alike to it. *)
Record Rows := mkRows {
  current : option (list dbValue);
  pending : list (list dbValue)
}.

#[global] Instance Rows_eq_dec : EqDecision Rows.
Proof. solve_decision. Defined.

(** ** Errors ([errors.go]) *)

(** The values stored under the keys of a [map[string]any] payload. *)
Inductive anyValue :=
| AnyJobId (jobId : JobIdType)
| AnyDate (d : Date)
| AnyDb (v : dbValue).

#[global] Instance anyValue_eq_dec : EqDecision anyValue.
Proof. solve_decision. Defined.

(** The [Data any] of a [CommonError]: what was being operated on. *)
Inductive payload :=
| DataNil
| DataJobStatus (js : JobStatus)
| DataDto (dto : JobStatusDto)
| DataMap (m : gmap string anyValue)
| DataRows (rows : Rows).

#[global] Instance payload_eq_dec : EqDecision payload.
Proof. solve_decision. Defined.

(** Go [error] values (non-nil): a leaf error made by [errors.New] or by a
    library, a [*CommonError], or the result of [fmt.Errorf] with one [%w]
    verb, which keeps its formatted text and the error it wraps.  A nil
    [error] is [None] of [option error]. *)
Inductive error :=
| ErrorString (msg : string)
| ErrCommon (FileName FuncName : string) (LineNo : Z)
            (Data : payload) (Code : string) (Err : option error)
| ErrWrap (msg : string) (err : error).

(** [type CommonError struct] *)
Record CommonError := mkCommonError {
  FileName : string;
  FuncName : string;
  LineNo : Z;
  Data : payload;
  Code : string;
  Err : option error
}.

Definition commonError (ce : CommonError) : error :=
  ErrCommon (FileName ce) (FuncName ce) (LineNo ce) (Data ce) (Code ce) (Err ce).

(** [err.Error()]; for a [*CommonError]:
    [fmt.Sprintf("%s::%s::%d Code %s | %v", FileName, FuncName, LineNo, Code, Err)]. *)
Fixpoint Error (e : error) : string :=
  match e with
  | ErrorString msg => msg
  | ErrCommon file func line _ code err =>
      file ++ "::" ++ func ++ "::" ++ pretty line ++ " Code " ++ code ++ " | " ++
      match err with
      | Some e' => Error e'
      | None => "<nil>"
      end
  | ErrWrap msg _ => msg
  end.

(** [Unwrap()]: [ce.Err] for a [*CommonError], the wrapped error for a
    [fmt.Errorf] value; a leaf error has none. *)
Definition Unwrap (e : error) : option error :=
  match e with
  | ErrorString _ => None
  | ErrCommon _ _ _ _ _ err => err
  | ErrWrap _ err => Some err
  end.

(** [errors.As(err, &ce)] for [ce *CommonError]: the first [*CommonError]
    on the unwrap chain of [e]. *)
Fixpoint asCommonError (e : error) : option CommonError :=
  match e with
  | ErrorString _ => None
  | ErrCommon file func line data code err =>
      Some (mkCommonError file func line data code err)
  | ErrWrap _ err => asCommonError err
  end.

(** [errors.Is(err, target)] for a leaf [target]: whether [target] is on the
    unwrap chain of [e].  Leaf errors are told apart by their texts, as the
    primitive errors of [errors.go] are. *)
Fixpoint isError (target : string) (e : error) : bool :=
  match e with
  | ErrorString msg => String.eqb msg target
  | ErrCommon _ _ _ _ _ (Some e') => isError target e'
  | ErrCommon _ _ _ _ _ None => false
  | ErrWrap _ err => isError target err
  end.

(** The unwrap chain of an error, outermost first. *)
Fixpoint chain (e : error) : list error :=
  e :: match e with
       | ErrorString _ => []
       | ErrCommon _ _ _ _ _ (Some e') => chain e'
       | ErrCommon _ _ _ _ _ None => []
       | ErrWrap _ err => chain err
       end.

(** What [runtime.Caller(1)] reports about a call site: the file, the
    program counter's function name and the line.  [None] stands for
    [ok == false]. *)
Record Frame := mkFrame {
  frameFile : string;   (* already reduced by filepath.Base *)
  frameFunc : string;   (* runtime.FuncForPC(pc).Name() *)
  frameLine : Z
}.

(** [NewCommonError(err, code, data)], called from a site whose frame is
    [caller]. *)
Definition NewCommonError (caller : option Frame)
    (err : option error) (code : string) (data : payload) : error :=
  match caller with
  | Some fr => ErrCommon (frameFile fr) (frameFunc fr) (frameLine fr) data code err
  | None => ErrCommon "" "" 0 data code err
  end.

(** The provenance text [WrapError] puts in front of the wrapped error. *)
Definition provenance (caller : option Frame) : string :=
  match caller with
  | Some fr => frameFile fr ++ "::" ++ frameFunc fr ++ "::" ++ pretty (frameLine fr)
  | None => "unknown caller"
  end.

(** [WrapError(err)] for a non-nil [err] (every call of the adapter is
    guarded by [err != nil]), called from a site whose frame is [caller]:
    [fmt.Errorf("%s::%s::%d <- %w", ...)], or
    [fmt.Errorf("unknown caller <- %w", err)]. *)
Definition WrapError (caller : option Frame) (err : error) : error :=
  ErrWrap (provenance caller ++ " <- " ++ Error err) err.

(** Primitive errors and error codes of [errors.go]. *)
Definition ErrDomainProps : error := ErrorString "props error".
Definition ErrcdDomainProps : string := "PropsError".
Definition ErrAppUnexpected : error := ErrorString "unexpected error".
Definition ErrcdAppUnexpected : string := "UnexpectedError".
Definition ErrRepoScan : error := ErrorString "scan error".
Definition ErrcdRepoScan : string := "ScanError".
Definition ErrRepoDupeRow : error := ErrorString "duplicate row error".
Definition ErrcdRepoDupeRow : string := "DuplicateRowError".
Definition ErrRepoConnException : error := ErrorString "connection exception error".
Definition ErrcdRepoConnException : string := "ConnectionExceptionError".
Definition ErrRepoOther : error := ErrorString "other error".
Definition ErrcdRepoOther : string := "RepoOtherError".
Definition ErrJsonDecode : error := ErrorString "json decode error".
Definition ErrcdJsonDecode : string := "JsonDecodeError".

(** ** The domain constructor *)

(** Modelled from the spec: the limits of the domain rules ("bounded
    length", "member of a fixed valid-code set"); the domain package is not
    among the sources, so the bounds and the code set are parameters. *)
Record Limits := mkLimits {
  maxApplicationIdLen : nat;
  maxJobIdLen : nat;
  maxRunIdLen : nat;
  maxHostIdLen : nat;
  validJobStatusCodes : list string
}.

(** Modelled from the spec: the invariants of a JobStatusRecord (section 3 of
    the specification), read at clock time [now] (nanoseconds since the
    epoch). *)
Record validRecord (lim : Limits) (now : Z) (r : JobStatus) : Prop := {
  valid_appId_nonempty : ApplicationId r <> "";
  valid_appId_bounded : (String.length (ApplicationId r) <= maxApplicationIdLen lim)%nat;
  valid_jobId_nonempty : JobId r <> "";
  valid_jobId_bounded : (String.length (JobId r) <= maxJobIdLen lim)%nat;
  valid_code_member : JobStatusCode r ∈ validJobStatusCodes lim;
  valid_ts_utc : offset (JobStatusTimestamp r) = 0;
  valid_ts_seconds : unixNano (JobStatusTimestamp r) `mod` nanosPerSecond = 0;
  valid_ts_not_future : unixNano (JobStatusTimestamp r) <= now;
  valid_date_utc : offset (AsTime (BusinessDate r)) = 0;
  valid_date_midnight : unixNano (AsTime (BusinessDate r)) `mod` nanosPerDay = 0;
  valid_date_not_future : unixNano (AsTime (BusinessDate r)) <= now;
  valid_date_le_ts : dayOf (AsTime (BusinessDate r)) <= dayOf (JobStatusTimestamp r);
  valid_runId_bounded : (String.length (RunId r) <= maxRunIdLen lim)%nat;
  valid_hostId_bounded : (String.length (HostId r) <= maxHostIdLen lim)%nat
}.

(** Modelled from the spec: the validation of a transfer object (the
    "construction/validation path used when a record is first created from
    external input"): the same rules, decided on the incoming fields. *)
Definition isUsable (lim : Limits) (now : Z) (dto : JobStatusDto) : bool :=
  bool_decide (AppId dto <> "")
  && bool_decide (String.length (AppId dto) <= maxApplicationIdLen lim)%nat
  && bool_decide (dtoJobId dto <> "")
  && bool_decide (String.length (dtoJobId dto) <= maxJobIdLen lim)%nat
  && bool_decide (JobSt dto ∈ validJobStatusCodes lim)
  && bool_decide (offset (JobTs dto) = 0)
  && bool_decide (unixNano (JobTs dto) `mod` nanosPerSecond = 0)
  && bool_decide (unixNano (JobTs dto) <= now)
  && bool_decide (offset (AsTime (BusDt dto)) = 0)
  && bool_decide (unixNano (AsTime (BusDt dto)) `mod` nanosPerDay = 0)
  && bool_decide (unixNano (AsTime (BusDt dto)) <= now)
  && bool_decide (dayOf (AsTime (BusDt dto)) <= dayOf (JobTs dto))
  && bool_decide (String.length (dtoRunId dto) <= maxRunIdLen lim)%nat
  && bool_decide (String.length (HstId dto) <= maxHostIdLen lim)%nat.

(** Modelled from the spec: [jobStatus.NewJobStatus] (the domain package is
    not among the sources).  The constructor validates the transfer object
    and builds the record from its fields; a transfer object that fails the
    rules gives the zero record and a classified error of kind
    [ErrcdDomainProps] (the data-validity failure of [errors.go]) carrying
    what was being operated on.  [caller] is the frame of the constructor's
    call of [NewCommonError]. *)
Definition NewJobStatus (lim : Limits) (caller : option Frame) (now : Z)
    (dto : JobStatusDto) : JobStatus * option error :=
  if isUsable lim now dto then
    (mkJobStatus (AppId dto) (dtoJobId dto) (JobSt dto) (JobTs dto) (BusDt dto)
                 (dtoRunId dto) (HstId dto),
     None)
  else
    (zeroJobStatus,
     Some (NewCommonError caller (Some ErrDomainProps) ErrcdDomainProps (DataDto dto))).

(** ** The storage connection *)

(** The calls the adapter issues on [database/sql], in program order. *)
Inductive Call :=
| CallOpen (driver dsn : string)
| CallExec (db : nat) (stmt : string) (args : list dbValue)
| CallQuery (db : nat) (stmt : string) (args : list dbValue)
| CallRowsClose
| CallClose (db : nat).

#[global] Instance Call_eq_dec : EqDecision Call.
Proof. solve_decision. Defined.

(** The storage-connection capability (an external collaborator): what each
    call on [database/sql] answers, given the calls issued before it; the
    answers are those of the library with the driver and the server behind
    it.  A query answers with the rows its cursor delivers or with an
    error. *)
Record Storage := mkStorage {
  openResult : list Call -> string -> string -> option error;
  execResult : list Call -> nat -> string -> list dbValue -> option error;
  queryResult : list Call -> nat -> string -> list dbValue -> list (list dbValue) + error;
  closeResult : list Call -> nat -> option error
}.

(** [type repoDB struct]; [DB] is a [*sql.DB]: [None] is the nil pointer,
    [Some h] the handle [sql.Open] returned. *)
Record repoDB := mkRepoDB {
  DSN : string;
  DB : option nat;
  sqlInsert : string;
  sqlSelect : string;
  sqlWhereJobId : string;
  sqlWhereJobIdBusDt : string
}.

#[global] Instance repoDB_eq_dec : EqDecision repoDB.
Proof. solve_decision. Defined.

(** [NewRepoDB(DSN)].  The statements are the raw string literals of the
    source, line breaks and tabs included. *)
Definition NewRepoDB (dsn : string) : repoDB :=
  {| DSN := dsn;
     DB := None;
     sqlInsert :=
       newline ++ tab ++ tab ++ tab ++
       "INSERT INTO " ++ quoteIdent "JobStatus" ++ " (" ++
       quoteIdent "ApplicationId" ++ ", " ++ quoteIdent "JobId" ++ ", " ++
       quoteIdent "JobStatusCode" ++ ", " ++ quoteIdent "JobStatusTimestamp" ++ ", " ++
       quoteIdent "BusinessDate" ++ ", " ++ quoteIdent "RunId" ++ ", " ++
       quoteIdent "HostId" ++ ")" ++
       newline ++ tab ++ tab ++ tab ++
       "VALUES($1, $2, $3, $4, $5, $6, $7)" ++
       newline ++ tab ++ tab;
     sqlSelect :=
       "SELECT " ++
       quoteIdent "ApplicationId" ++ ", " ++ quoteIdent "JobId" ++ ", " ++
       quoteIdent "JobStatusCode" ++ ", " ++ quoteIdent "JobStatusTimestamp" ++ ", " ++
       quoteIdent "BusinessDate" ++ ", " ++ quoteIdent "RunId" ++ ", " ++
       quoteIdent "HostId" ++ " FROM " ++ quoteIdent "JobStatus";
     sqlWhereJobId := "WHERE " ++ quoteIdent "JobId" ++ " = $1";
     sqlWhereJobIdBusDt :=
       "WHERE " ++ quoteIdent "JobId" ++ " = $1 AND " ++
       quoteIdent "BusinessDate" ++ " = $2" |}.

(** The state an operation runs in: the receiver [*repoDB] and the calls
    issued on the storage so far. *)
Record State := mkState {
  repo : repoDB;
  calls : list Call
}.

(** An operation either returns or panics (a method call through the nil
    [*sql.DB]). *)
Inductive outcome (A : Type) :=
| Returns (a : A)
| Panics.
Arguments Returns {A} a.
Arguments Panics {A}.

Definition M (A : Type) : Type := State -> outcome A * State.

#[global] Instance M_ret : MRet M := fun A a st => (Returns a, st).
#[global] Instance M_bind : MBind M := fun A B f m st =>
  match m st with
  | (Returns a, st') => f a st'
  | (Panics, st') => (Panics, st')
  end.

Definition getRepo : M repoDB := fun st => (Returns (repo st), st).
Definition getCalls : M (list Call) := fun st => (Returns (calls st), st).
Definition setDB (db : option nat) : M unit := fun st =>
  (Returns tt,
   mkState {| DSN := DSN (repo st); DB := db;
              sqlInsert := sqlInsert (repo st); sqlSelect := sqlSelect (repo st);
              sqlWhereJobId := sqlWhereJobId (repo st);
              sqlWhereJobIdBusDt := sqlWhereJobIdBusDt (repo st) |}
           (calls st)).
Definition record (c : Call) : M unit := fun st =>
  (Returns tt, mkState (repo st) (calls st ++ [c])).
Definition panic {A : Type} : M A := fun st => (Panics, st).

(** Dereferencing [repo.DB] for a method call. *)
Definition derefDB : M nat :=
  r ← getRepo;
  match DB r with
  | Some h => mret h
  | None => panic
  end.

(** ** The mapper and the repository operations ([package repo]) *)

(** The places of the adapter that ask [runtime.Caller(1)] for their own
    position, by the source line of the call. *)
Inductive CallSite :=
| SiteOpenNoDsn            (* Open, line 47 *)
| SiteOpenConn             (* Open, line 52 *)
| SiteAdd                  (* Add, line 76 *)
| SiteGetByJobIdQuery      (* GetByJobId, line 88 *)
| SiteGetByJobIdRows       (* GetByJobId, line 94 *)
| SiteGetByJobIdBusDtQuery (* GetByJobIdBusinessDate, line 106 *)
| SiteGetByJobIdBusDtRows  (* GetByJobIdBusinessDate, line 112 *)
| SiteRowsToDomain         (* rowsToDomain, line 126 *)
| SiteDbToDomainScan       (* dbToDomain, line 148 *)
| SiteGetByQuery.          (* the query-by-filter path *)

(** What [rows.Scan] does for one column and a destination of kind string
    ([*string], [*JobIdType], [*JobStatusCodeType]).  A NULL cannot be
    stored in such a destination.  Only the values the projection of
    [sqlSelect] can deliver are followed exactly: the text a timestamp would
    be formatted to is not modelled, and a timestamp offered to a string
    destination is reported as a failed read.  The error texts stand for the
    library's, which also name the column. *)
Definition scanString (index : nat) (v : dbValue) : string + error :=
  match v with
  | DbText s => inl s
  | DbNull =>
      inr (ErrorString ("sql: Scan error on column index " ++ pretty index ++
                        ": converting NULL to string is unsupported"))
  | DbTimestamp _ =>
      inr (ErrorString ("sql: Scan error on column index " ++ pretty index ++
                        ": unsupported Scan"))
  end.

(** What [rows.Scan] does for one column and a [*time.Time] destination. *)
Definition scanTime (index : nat) (v : dbValue) : Time + error :=
  match v with
  | DbTimestamp t => inl t
  | DbText _ =>
      inr (ErrorString ("sql: Scan error on column index " ++ pretty index ++
                        ": unsupported Scan, storing driver.Value type string into type *time.Time"))
  | DbNull =>
      inr (ErrorString ("sql: Scan error on column index " ++ pretty index ++
                        ": unsupported Scan, storing driver.Value type <nil> into type *time.Time"))
  end.

(** The seven variables [dbToDomain] scans into. *)
Record Scanned := mkScanned {
  appId : string;
  jobId : JobIdType;
  jobSt : JobStatusCodeType;
  jobTs : Time;
  busDt : Time;
  runId : string;
  hstId : string
}.

#[global] Instance Scanned_eq_dec : EqDecision Scanned.
Proof. solve_decision. Defined.

Definition bindE {A B : Type} (m : A + error) (k : A -> B + error) : B + error :=
  match m with
  | inl a => k a
  | inr e => inr e
  end.

(** [rows.Scan(&appId, &jobId, &jobSt, &jobTs, &busDt, &runId, &hstId)]:
    the cursor must stand on a row, the row must have as many columns as
    there are destinations, and the columns are stored left to right. *)
Definition Scan (rows : Rows) : Scanned + error :=
  match current rows with
  | None => inr (ErrorString "sql: Scan called without calling Next")
  | Some [c0; c1; c2; c3; c4; c5; c6] =>
      bindE (scanString 0 c0) (fun a =>
      bindE (scanString 1 c1) (fun j =>
      bindE (scanString 2 c2) (fun s =>
      bindE (scanTime 3 c3) (fun t =>
      bindE (scanTime 4 c4) (fun b =>
      bindE (scanString 5 c5) (fun r =>
      bindE (scanString 6 c6) (fun h =>
      inl (mkScanned a j s t b r h))))))))
  | Some row =>
      inr (ErrorString ("sql: expected " ++ pretty (List.length row) ++
                        " destination arguments in Scan, not 7"))
  end.

(** The transfer object [dbToDomain] builds from the scanned variables. *)
Definition scannedDto (v : Scanned) : JobStatusDto :=
  {| AppId := appId v;
     dtoJobId := jobId v;
     JobSt := jobSt v;
     JobTs := jobTs v;
     BusDt := NewDateFromTime (busDt v);
     dtoRunId := runId v;
     HstId := hstId v |}.

(** [domainToDb(jobStatus)]: the values to insert, in the order of the
    columns of [sqlInsert]. *)
Definition domainToDb (jobStatus : JobStatus) : list dbValue :=
  [ DbText (ApplicationId jobStatus);
    DbText (JobId jobStatus);
    DbText (JobStatusCode jobStatus);
    DbTimestamp (JobStatusTimestamp jobStatus);
    DbTimestamp (AsTime (BusinessDate jobStatus));
    DbText (RunId jobStatus);
    DbText (HostId jobStatus) ].

Section Adapter.

(** [runtime.Caller(1)] at each call site. *)
Variable runtimeCaller : CallSite -> option Frame.

(** [internal.PgErrToCommon] (utils.go is not among the sources): the
    error code a driver error is classified as. *)
Variable PgErrToCommon : error -> string.

(** [internal.ErrRepoNoDsn] and [internal.ErrcdRepoNoDsn], which the
    [errors.go] at hand does not declare. *)
Variable ErrRepoNoDsn : error.
Variable ErrcdRepoNoDsn : string.

(** The domain-record constructor [jobStatus.NewJobStatus], as the adapter
    sees it: an external collaborator. *)
Variable newJobStatus : JobStatusDto -> JobStatus * option error.

(** The storage behind [database/sql]. *)
Variable storage : Storage.

(** [dbToDomain(rows)] *)
Definition dbToDomain (rows : Rows) : JobStatus * option error :=
  match Scan rows with
  | inr err =>
      (zeroJobStatus,
       Some (NewCommonError (runtimeCaller SiteDbToDomainScan)
               (Some err) ErrcdRepoScan (DataRows rows)))
  | inl v => newJobStatus (scannedDto v)
  end.

(** The loop of [rowsToDomain]: [todo] are the rows [rows.Next()] has yet
    to deliver, [result] the records appended so far. *)
Fixpoint rowsToDomainLoop (todo : list (list dbValue)) (result : list JobStatus)
    : list JobStatus * option error :=
  match todo with
  | [] => (result, None)
  | row :: rest =>
      match dbToDomain (mkRows (Some row) rest) with
      | (_, Some err) => ([], Some (WrapError (runtimeCaller SiteRowsToDomain) err))
      | (jobStatus, None) => rowsToDomainLoop rest (result ++ [jobStatus])
      end
  end.

(** [rowsToDomain(rows)]; the nil slice is the empty list. *)
Definition rowsToDomain (rows : Rows) : list JobStatus * option error :=
  rowsToDomainLoop (pending rows) [].

(** [sql.Open("pgx", dsn)]: the handle is a fresh one. *)
Definition sqlOpen (driver dsn : string) : M (nat + error) :=
  cs ← getCalls;
  _ ← record (CallOpen driver dsn);
  match openResult storage cs driver dsn with
  | Some err => mret (inr err)
  | None => mret (inl (List.length cs))
  end.

(** [db.Exec(stmt, args...)] *)
Definition dbExec (db : nat) (stmt : string) (args : list dbValue) : M (option error) :=
  cs ← getCalls;
  _ ← record (CallExec db stmt args);
  mret (execResult storage cs db stmt args).

(** [db.Query(stmt, args...)] *)
Definition dbQuery (db : nat) (stmt : string) (args : list dbValue) : M (Rows + error) :=
  cs ← getCalls;
  _ ← record (CallQuery db stmt args);
  match queryResult storage cs db stmt args with
  | inl rs => mret (inl (mkRows None rs))
  | inr err => mret (inr err)
  end.

(** [db.Close()] *)
Definition dbClose (db : nat) : M (option error) :=
  cs ← getCalls;
  _ ← record (CallClose db);
  mret (closeResult storage cs db).

(** [repo.Open()] *)
Definition Open : M (option error) :=
  r ← getRepo;
  if String.eqb (DSN r) "" then
    mret (Some (NewCommonError (runtimeCaller SiteOpenNoDsn)
                  (Some ErrRepoNoDsn) ErrcdRepoNoDsn DataNil))
  else
    res ← sqlOpen "pgx" (DSN r);
    match res with
    | inr err =>
        mret (Some (NewCommonError (runtimeCaller SiteOpenConn)
                      (Some err) ErrcdRepoConnException DataNil))
    | inl db =>
        _ ← setDB (Some db);
        mret None
    end.

(** [repo.Close()] *)
Definition Close : M (option error) :=
  r ← getRepo;
  match DB r with
  | Some db => dbClose db
  | None => mret None
  end.

(** [repo.Add(jobStatus)] *)
Definition Add (jobStatus : JobStatus) : M (option error) :=
  r ← getRepo;
  db ← derefDB;
  res ← dbExec db (sqlInsert r) (domainToDb jobStatus);
  match res with
  | Some err =>
      let code := PgErrToCommon err in
      mret (Some (NewCommonError (runtimeCaller SiteAdd)
                    (Some err) code (DataJobStatus jobStatus)))
  | None => mret None
  end.

(** [repo.GetByJobId(jobId)]; the deferred [rows.Close()] runs after the
    rows were converted. *)
Definition GetByJobId (jobId : JobIdType) : M (list JobStatus * option error) :=
  r ← getRepo;
  db ← derefDB;
  res ← dbQuery db (sqlSelect r ++ sqlWhereJobId r) [DbText jobId];
  match res with
  | inr err =>
      let code := PgErrToCommon err in
      mret ([], Some (NewCommonError (runtimeCaller SiteGetByJobIdQuery)
                        (Some err) code
                        (DataMap {[ "jobId" := AnyJobId jobId ]})))
  | inl rows =>
      let '(data, err) := rowsToDomain rows in
      _ ← record CallRowsClose;
      match err with
      | Some e => mret ([], Some (WrapError (runtimeCaller SiteGetByJobIdRows) e))
      | None => mret (data, None)
      end
  end.

(** [repo.GetByJobIdBusinessDate(jobId, busDt)] *)
Definition GetByJobIdBusinessDate (jobId : JobIdType) (busDt : Date)
    : M (list JobStatus * option error) :=
  r ← getRepo;
  db ← derefDB;
  res ← dbQuery db (sqlSelect r ++ sqlWhereJobIdBusDt r)
          [DbText jobId; DbTimestamp (dateTime busDt)];
  match res with
  | inr err =>
      let code := PgErrToCommon err in
      mret ([], Some (NewCommonError (runtimeCaller SiteGetByJobIdBusDtQuery)
                        (Some err) code
                        (DataMap (<[ "busDt" := AnyDate busDt ]>
                                    {[ "jobId" := AnyJobId jobId ]}))))
  | inl rows =>
      let '(data, err) := rowsToDomain rows in
      _ ← record CallRowsClose;
      match err with
      | Some e => mret ([], Some (WrapError (runtimeCaller SiteGetByJobIdBusDtRows) e))
      | None => mret (data, None)
      end
  end.

(** *** The query-by-filter path *)

(** Modelled from the spec: the recognised filter fields in canonical order
    (the field vocabulary of the record), each with the column it is
    compared to.  The query-by-filter code is not among the sources. *)
Definition filterFields : list (string * string) :=
  [ ("applicationId", "ApplicationId");
    ("jobId", "JobId");
    ("jobStatusCode", "JobStatusCode");
    ("jobStatusTimestamp", "JobStatusTimestamp");
    ("businessDate", "BusinessDate");
    ("runId", "RunId");
    ("hostId", "HostId") ].

(** Modelled from the spec: whether a field is present in a filter set (a
    sparse mapping from field name to value). *)
Definition present (fs : gmap string dbValue) (field : string) : bool :=
  match fs !! field with
  | Some _ => true
  | None => false
  end.

(** Modelled from the spec: the (column, value) pairs of the fields that
    are present, in canonical field order. *)
Definition filterTerms (fs : gmap string dbValue) : list (string * dbValue) :=
  omap (fun fc => match fs !! fst fc with
                  | Some v => Some (snd fc, v)
                  | None => None
                  end) filterFields.

(** Modelled from the spec: the conjunctive equality predicate over the
    terms, identifiers quoted, placeholders numbered from [n]. *)
Fixpoint renderTerms (n : nat) (terms : list (string * dbValue)) : string :=
  match terms with
  | [] => ""
  | [t] => quoteIdent (fst t) ++ " = $" ++ pretty n
  | t :: rest =>
      quoteIdent (fst t) ++ " = $" ++ pretty n ++ " AND " ++ renderTerms (S n) rest
  end.

(** Modelled from the spec: the error kind of an unusable filter set, which
    the [errors.go] at hand does not declare. *)
Definition ErrRepoInvalidQuery : error := ErrorString "invalid query error".
Definition ErrcdRepoInvalidQuery : string := "InvalidQueryError".

(** Modelled from the spec: the Predicate Builder.  It gives the predicate
    text and the values in the same order, or the usability rejection when
    the filter set names no identifying field or no date field. *)
Definition buildPredicate (fs : gmap string dbValue)
    : (string * list dbValue) + error :=
  let terms := filterTerms fs in
  let hasIdent := existsb (fun t => String.eqb (fst t) "ApplicationId"
                                    || String.eqb (fst t) "JobId") terms in
  let hasDate := existsb (fun t => String.eqb (fst t) "JobStatusTimestamp"
                                   || String.eqb (fst t) "BusinessDate") terms in
  if hasIdent && hasDate then
    inl ("WHERE " ++ renderTerms 1 terms, map snd terms)
  else
    inr ErrRepoInvalidQuery.

(** Modelled from the spec: [GetByQuery(filterSet)]: runs the Predicate
    Builder; on rejection fails at once with the InvalidQueryError, the
    filter set as payload; on acceptance executes the generated predicate
    and proceeds as [GetByJobId]. *)
Definition GetByQuery (fs : gmap string dbValue) : M (list JobStatus * option error) :=
  match buildPredicate fs with
  | inr err =>
      mret ([], Some (NewCommonError (runtimeCaller SiteGetByQuery)
                        (Some err) ErrcdRepoInvalidQuery
                        (DataMap (AnyDb <$> fs))))
  | inl (predicate, values) =>
      r ← getRepo;
      db ← derefDB;
      res ← dbQuery db (sqlSelect r ++ " " ++ predicate) values;
      match res with
      | inr err =>
          let code := PgErrToCommon err in
          mret ([], Some (NewCommonError (runtimeCaller SiteGetByQuery)
                            (Some err) code (DataMap (AnyDb <$> fs))))
      | inl rows =>
          let '(data, err) := rowsToDomain rows in
          _ ← record CallRowsClose;
          match err with
          | Some e => mret ([], Some (WrapError (runtimeCaller SiteGetByQuery) e))
          | None => mret (data, None)
          end
      end
  end.

End Adapter.

(** ** Column order *)




(** ** Result sets *)

(** Every row of [rows], standing under the cursor with the rows after it
    (and then [post]) still to come, converts without error. *)
Fixpoint allConvert (runtimeCaller : CallSite -> option Frame)
    (newJobStatus : JobStatusDto -> JobStatus * option error)
    (rows post : list (list dbValue)) : Prop :=
  match rows with
  | [] => True
  | row :: rest =>
      snd (dbToDomain runtimeCaller newJobStatus (mkRows (Some row) (rest ++ post)%list)) = None
      /\ allConvert runtimeCaller newJobStatus rest post
  end.

(** The records of rows that all convert, in the order of the rows. *)
Fixpoint converted (runtimeCaller : CallSite -> option Frame)
    (newJobStatus : JobStatusDto -> JobStatus * option error)
    (rows post : list (list dbValue)) : list JobStatus :=
  match rows with
  | [] => []
  | row :: rest =>
      fst (dbToDomain runtimeCaller newJobStatus (mkRows (Some row) (rest ++ post)%list)) :: converted runtimeCaller newJobStatus rest post
  end.

(** ** Payloads *)

(** An error carries the job id as its payload when the classified error
    [errors.As] finds on it has a map payload with the job id under the key
    [jobId]. *)
Definition carriesJobId (jobId : JobIdType) (e : error) : Prop :=
  exists ce m, asCommonError e = Some ce /\ Data ce = DataMap m /\
               m !! "jobId" = Some (AnyJobId jobId).

(** The usability rule of the specification, on the presence of fields in
    the filter set. *)
Definition usableFilter (fs : gmap string dbValue) : Prop :=
  (is_Some (fs !! "applicationId") \/ is_Some (fs !! "jobId")) /\
  (is_Some (fs !! "jobStatusTimestamp") \/ is_Some (fs !! "businessDate")).

(** An error handed up through several layers, each wrapping it with
    [WrapError] at its own call site; the first caller of the list is the
    outermost layer. *)
Definition wrapThrough (callers : list (option Frame)) (e : error) : error :=
  foldr WrapError e callers.

(** The provenance texts the layers put in front, outermost first. *)
Definition provenanceTrail (callers : list (option Frame)) : string :=
  foldr (fun caller rest => provenance caller ++ " <- " ++ rest) "" callers.

(** ** Concrete instances *)

Definition exampleFrame (func : string) (line : Z) : option Frame :=
  Some (mkFrame "repoDbSqlPgx.go" func line).

Definition exampleCaller (site : CallSite) : option Frame :=
  match site with
  | SiteOpenNoDsn => exampleFrame "repo.(*repoDB).Open" 47
  | SiteOpenConn => exampleFrame "repo.(*repoDB).Open" 52
  | SiteAdd => exampleFrame "repo.(*repoDB).Add" 76
  | SiteGetByJobIdQuery => exampleFrame "repo.(*repoDB).GetByJobId" 88
  | SiteGetByJobIdRows => exampleFrame "repo.(*repoDB).GetByJobId" 94
  | SiteGetByJobIdBusDtQuery => exampleFrame "repo.(*repoDB).GetByJobIdBusinessDate" 106
  | SiteGetByJobIdBusDtRows => exampleFrame "repo.(*repoDB).GetByJobIdBusinessDate" 112
  | SiteRowsToDomain => exampleFrame "repo.rowsToDomain" 126
  | SiteDbToDomainScan => exampleFrame "repo.dbToDomain" 148
  | SiteGetByQuery => None
  end.

Definition examplePgErrToCommon (e : error) : string := ErrcdRepoOther.

Definition exampleLimits : Limits :=
  mkLimits 200 200 200 200 ["START"; "SUCCEED"; "FAIL"].

(** 2023-07-01T00:00:00Z and 2023-07-01T10:00:00Z *)
Definition exampleDate : Date := mkDate (mkTime (1688169600 * nanosPerSecond) 0).
Definition exampleTimestamp : Time := mkTime (1688205600 * nanosPerSecond) 0.

(** The clock at construction (2023-07-01T10:00:01Z) and at a later read. *)
Definition exampleNow0 : Z := 1688205601 * nanosPerSecond.
Definition exampleNow : Z := 1700000000 * nanosPerSecond.

Definition exampleRecord : JobStatus :=
  mkJobStatus "App1" "J1" "START" exampleTimestamp exampleDate "" "".

(** The record of the example with a status code outside the valid set, as
    an out-of-band write could leave it in the table. *)
Definition unknownCodeRecord : JobStatus :=
  mkJobStatus "App1" "J1" "PAUSED" exampleTimestamp exampleDate "" "".

Definition exampleNewJobStatus : JobStatusDto -> JobStatus * option error :=
  NewJobStatus exampleLimits (exampleFrame "jobStatus.NewJobStatus" 0) exampleNow.

(** A row of the table with NULL in the nullable column RunId. *)
Definition exampleNullRow : list dbValue :=
  [ DbText "App1"; DbText "J1"; DbText "START"; DbTimestamp exampleTimestamp;
    DbTimestamp (AsTime exampleDate); DbNull; DbText "host1" ].

(** A storage whose queries find nothing. *)
Definition emptyStorage : Storage :=
  mkStorage (fun _ _ _ => None) (fun _ _ _ _ => None)
            (fun _ _ _ _ => inl []) (fun _ _ => None).

(** A storage whose queries find the record of the example followed by the
    row with the NULL run id. *)
Definition nullRowStorage : Storage :=
  mkStorage (fun _ _ _ => None) (fun _ _ _ _ => None)
            (fun _ _ _ _ => inl [domainToDb exampleRecord; exampleNullRow])
            (fun _ _ => None).

(** The filter sets of the specification's examples. *)
Definition filterJobIdOnly : gmap string dbValue := {[ "jobId" := DbText "J1" ]}.
Definition filterJobIdDate : gmap string dbValue :=
  <[ "businessDate" := DbTimestamp (AsTime exampleDate) ]> {[ "jobId" := DbText "J1" ]}.

(** The error [Scan] reports for the NULL run id of [exampleNullRow]. *)
Definition exampleScanError : error :=
  ErrorString ("sql: Scan error on column index " ++ pretty 5%nat ++
               ": converting NULL to string is unsupported").

(** The error [GetByJobId] returns when the second row of [nullRowStorage]
    fails to scan. *)
Definition exampleRowsError : error :=
  WrapError (exampleCaller SiteGetByJobIdRows)
    (WrapError (exampleCaller SiteRowsToDomain)
       (NewCommonError (exampleCaller SiteDbToDomainScan)
          (Some exampleScanError) ErrcdRepoScan
          (DataRows (mkRows (Some exampleNullRow) [])))).

(** An opened repository, before any other call. *)
Definition exampleState : State :=
  mkState {| DSN := "postgres://slo"; DB := Some 0%nat;
             sqlInsert := sqlInsert (NewRepoDB "postgres://slo");
             sqlSelect := sqlSelect (NewRepoDB "postgres://slo");
             sqlWhereJobId := sqlWhereJobId (NewRepoDB "postgres://slo");
             sqlWhereJobIdBusDt := sqlWhereJobIdBusDt (NewRepoDB "postgres://slo") |}
          [CallOpen "pgx" "postgres://slo"].

(** The state [GetByJobId "J1"] leaves behind from [exampleState]: one query
    and the closing of its cursor were issued. *)
Definition exampleRowsFinalState : State :=
  mkState (repo exampleState)
    (calls exampleState ++
     [CallQuery 0 (sqlSelect (repo exampleState) ++ sqlWhereJobId (repo exampleState))
        [DbText "J1"];
      CallRowsClose]).

(** ** Logging of errors ([errors.go]) *)

(** The characters of the class of [isEmptyJson]'s pattern: the brackets,
    the braces and the comma. *)
Definition emptyJsonChar (c : ascii) : bool :=
  Ascii.eqb c "["%char || Ascii.eqb c "]"%char || Ascii.eqb c ","%char
  || Ascii.eqb c "{"%char || Ascii.eqb c "}"%char.

Fixpoint allEmptyJsonChars (s : string) : bool :=
  match s with
  | EmptyString => true
  | String c rest => emptyJsonChar c && allEmptyJsonChars rest
  end.

(** [isEmptyJson]: the pattern is the character class repeated one or more
    times between the start and the end of the text, so a text matches when
    it is not empty and has no character outside the class. *)
Definition isEmptyJson (s : string) : bool :=
  match s with
  | EmptyString => false
  | String _ _ => allEmptyJsonChars s
  end.

(** What [log/slog] receives: the level, the message and the attributes. *)
Inductive LogLevel := LevelInfo | LevelError.

Inductive LogAttr :=
| AttrString (key value : string)      (* slog.String *)
| AttrInt (key : string) (value : Z)   (* slog.Int *)
| AttrError (key : string) (value : error).

Record LogRecord := mkLogRecord {
  logLevel : LogLevel;
  logMessage : string;
  logAttrs : list LogAttr
}.

Section Logging.

(** [string(d)] for [d, _ := json.Marshal(data)], and
    [fmt.Sprintf("%v", data)]: library functions, taken as they are. *)
Variable jsonMarshal : payload -> string.
Variable sprintV : payload -> string.

(** The text [LogError] logs under [errorData].  [errData[0]] panics on the
    empty text, and [errData[1 : len(errData)-1]] on a text of one
    character. *)
Definition logErrorData (ce : CommonError) : outcome string :=
  let errData := jsonMarshal (Data ce) in
  if isEmptyJson errData then
    let errData := sprintV (Data ce) in
    match errData with
    | EmptyString => Panics
    | String c _ =>
        if Ascii.eqb c "["%char then
          if (String.length errData <? 2)%nat then Panics
          else Returns (String.substring 1 (String.length errData - 2) errData)
        else Returns errData
    end
  else Returns errData.

(** [LogError(logger, msg, callStack, ce)] for a non-nil [ce]; [log] is what
    the logger has received so far. *)
Definition LogError (msg callStack : string) (ce : CommonError)
    (log : list LogRecord) : outcome unit * list LogRecord :=
  match logErrorData ce with
  | Panics => (Panics, log)
  | Returns errData =>
      (Returns tt,
       (log ++ [mkLogRecord LevelError msg
                  [ AttrString "callStack" callStack;
                    AttrString "fileName" (FileName ce);
                    AttrString "funcName" (FuncName ce);
                    AttrInt "lineNo" (LineNo ce);
                    AttrString "errorData" errData ]])%list)
  end.

End Logging.

(** The JSON text of an array of [n] values that marshal to the empty
    object, as [json.Marshal] writes it (no spaces). *)
Fixpoint emptyObjects (n : nat) : string :=
  match n with
  | O => ""
  | S O => "{}"
  | S m => "{}," ++ emptyObjects m
  end.

Definition jsonEmptyObjects (n : nat) : string := "[" ++ emptyObjects n ++ "]".

(** ** Module initialisation ([modinit.go]) *)

(** A reference to the repository object of the state (the [*repoDB] that
    [Init] hands out as [jobStatus.Repo]). *)
Inductive RepoRef := TheRepo.

Section ModInit.

Variable runtimeCaller : CallSite -> option Frame.
Variable ErrRepoNoDsn : error.
Variable ErrcdRepoNoDsn : string.
Variable storage : Storage.

(** [jobStatus.UseCases] and [jobStatus.Controllers] with their
    constructors, which are not among the sources. *)
Variable UseCases : Type.
Variable Controllers : Type.
Variable NewUseCases : RepoRef -> UseCases.
Variable NewControllers : UseCases -> Controllers.

(** The four values [Init] returns; [None] is nil. *)
Record InitResult := mkInitResult {
  initRepo : option RepoRef;
  initUseCases : option UseCases;
  initControllers : option Controllers;
  initErr : option error
}.

Definition logInfo (msg : string) : LogRecord := mkLogRecord LevelInfo msg [].

(** [Init(pgUrl, logger)]: [log] is what the logger has received and [cs]
    the storage calls issued before; the repository object is a new one. *)
Definition Init (pgUrl : string) (log : list LogRecord) (cs : list Call)
    : outcome InitResult * State * list LogRecord :=
  let log := (log ++ [logInfo "create repo"])%list in
  let st := mkState (NewRepoDB pgUrl) cs in
  let log := (log ++ [logInfo "open database"])%list in
  match Open runtimeCaller ErrRepoNoDsn ErrcdRepoNoDsn storage st with
  | (Panics, st) => (Panics, st, log)
  | (Returns (Some err), st) =>
      (Returns (mkInitResult None None None (Some err)), st,
       (log ++ [mkLogRecord LevelError "database connection failed"
                  [AttrError "err" err]])%list)
  | (Returns None, st) =>
      let log := (log ++ [logInfo "create usecases"])%list in
      let uc := NewUseCases TheRepo in
      let log := (log ++ [logInfo "create controllers"])%list in
      let ctrl := NewControllers uc in
      (Returns (mkInitResult (Some TheRepo) (Some uc) (Some ctrl) None), st, log)
  end.

End ModInit.

(** ** Statements and their arguments *)

(** A repository with its handle replaced. *)
Definition withDB (r : repoDB) (db : option nat) : repoDB :=
  {| DSN := DSN r; DB := db;
     sqlInsert := sqlInsert r; sqlSelect := sqlSelect r;
     sqlWhereJobId := sqlWhereJobId r;
     sqlWhereJobIdBusDt := sqlWhereJobIdBusDt r |}.


(** A storage that refuses every call with the same driver error. *)
Definition failingStorage (err : error) : Storage :=
  mkStorage (fun _ _ _ => Some err) (fun _ _ _ _ => Some err)
            (fun _ _ _ _ => inr err) (fun _ _ => Some err).

Definition exampleDriverError : error := ErrorString "connection refused".

(** Stand-ins for [json.Marshal] and [%v] in the examples: a nil payload
    marshals to null; the other payloads stand for values whose JSON text
    shows nothing (a list of errors), with a [%v] text that is a bracketed
    list for a record, empty for a cursor and a lone bracket for a map. *)
Definition exampleJsonMarshal (data : payload) : string :=
  match data with
  | DataNil => "null"
  | _ => "[{},{}]"
  end.

Definition exampleSprintV (data : payload) : string :=
  match data with
  | DataNil => "<nil>"
  | DataRows _ => ""
  | DataMap _ => "["
  | _ => "[props error timestamp error]"
  end.

Definition exampleCommonError (data : payload) : CommonError :=
  mkCommonError "jobStatus.go" "jobStatus.NewJobStatus" 12 data ErrcdDomainProps
    (Some ErrDomainProps).

(** ** Cursors that break, handles that are closed *)

(** A cursor over a result set: [rows.Next()] delivers the rows of
    [resultSet] one by one and returns false at the end, or earlier when the
    iteration fails; [breaksAfter = Some (n, err)] is a cursor that fails
    after it delivered [n] rows, and [err] is what [rows.Err()] then
    reports. *)
Record Cursor := mkCursor {
  resultSet : list (list dbValue);
  breaksAfter : option (nat * error)
}.

(** The rows [Next] delivers before it returns false. *)
Definition delivered (c : Cursor) : list (list dbValue) :=
  match breaksAfter c with
  | Some (n, _) => take n (resultSet c)
  | None => resultSet c
  end.

(** [rows.Err()] after the iteration. *)
Definition rowsErr (c : Cursor) : option error :=
  match breaksAfter c with
  | Some (_, err) => Some err
  | None => None
  end.

(** The [*sql.Rows] a query hands over for the cursor. *)
Definition cursorRows (c : Cursor) : Rows := mkRows None (delivered c).

(** [database/sql]'s error for a call on a closed [*sql.DB]. *)
Definition errDBClosed : error := ErrorString "sql: database is closed".

(** A storage that answers calls on a closed handle as [database/sql] does:
    [Close] on a handle that was closed before returns nil, and [Exec] and
    [Query] on it are refused with [errDBClosed]. *)
Definition respectsClose (storage : Storage) : Prop :=
  forall (cs : list Call) (h : nat),
    CallClose h ∈ cs ->
    closeResult storage cs h = None
    /\ (forall stmt args, execResult storage cs h stmt args = Some errDBClosed)
    /\ (forall stmt args, queryResult storage cs h stmt args = inr errDBClosed).

(** A storage with that behaviour, whose open handles accept every insert
    and find nothing. *)
Definition closingStorage : Storage :=
  mkStorage (fun _ _ _ => None)
            (fun cs h _ _ =>
               if bool_decide (CallClose h ∈ cs) then Some errDBClosed else None)
            (fun cs h _ _ =>
               if bool_decide (CallClose h ∈ cs) then inr errDBClosed else inl [])
            (fun _ _ => None).

(** A cursor over two rows that breaks after the first, and a storage whose
    queries hand over what that cursor delivers. *)
Definition exampleBrokenCursor : Cursor :=
  mkCursor [domainToDb exampleRecord; domainToDb exampleRecord]
           (Some (1%nat, exampleDriverError)).

Definition brokenCursorStorage : Storage :=
  mkStorage (fun _ _ _ => None) (fun _ _ _ _ => None)
            (fun _ _ _ _ => inl (delivered exampleBrokenCursor))
            (fun _ _ => None).

(** * Properties *)

(** ** Round trip through the mapper *)

Lemma NewDateFromTime_AsTime (d : Date) :
  offset (AsTime d) = 0 ->
  unixNano (AsTime d) `mod` nanosPerDay = 0 ->
  NewDateFromTime (AsTime d) = d.
Proof.
  destruct d as [[u o]]; cbn; intros -> Hmod.
  unfold NewDateFromTime, dayOf; cbn.
  do 2 f_equal.
  rewrite Z.add_0_r.
  assert (Hd : nanosPerDay <> 0) by (vm_compute; discriminate).
  pose proof (Z.div_mod u nanosPerDay Hd) as Hdm.
  rewrite Hmod in Hdm. lia.
Qed.

(** Validity is stable under the passing of time: "not in the future" is
    the only rule that reads the clock. *)
Lemma validRecord_later (lim : Limits) (now0 now : Z) (r : JobStatus) :
  now0 <= now -> validRecord lim now0 r -> validRecord lim now r.
Proof.
  intros Hle [? ? ? ? ? ? ? ? ? ? ? ? ? ?]; split; try assumption; lia.
Qed.

(** The validation accepts the fields of a valid record. *)
Lemma isUsable_valid (lim : Limits) (now : Z) (r : JobStatus) :
  validRecord lim now r ->
  isUsable lim now
    (mkJobStatusDto (ApplicationId r) (JobId r) (JobStatusCode r)
       (JobStatusTimestamp r) (BusinessDate r) (RunId r) (HostId r)) = true.
Proof.
  intros [? ? ? ? ? ? ? ? ? ? ? ? ? ?].
  unfold isUsable; cbn [AppId dtoJobId JobSt JobTs BusDt dtoRunId HstId].
  repeat (apply andb_true_intro; split); apply bool_decide_eq_true_2; assumption.
Qed.

(** Scanning the row [domainToDb] emits fills the scanned variables with the
    fields of the record. *)
Lemma Scan_domainToDb (r : JobStatus) (rest : list (list dbValue)) :
  Scan (mkRows (Some (domainToDb r)) rest) =
  inl (mkScanned (ApplicationId r) (JobId r) (JobStatusCode r)
         (JobStatusTimestamp r) (AsTime (BusinessDate r)) (RunId r) (HostId r)).
Proof. reflexivity. Qed.

(** C1. For every valid JobStatus record [r] (valid when it was built, at
    clock [now0], and read back at a clock [now] not earlier), the row of
    [domainToDb r], put under the cursor and converted by [dbToDomain] with
    the domain constructor, gives [r] again and no error. *)
Theorem mapper_round_trip
    (runtimeCaller : CallSite -> option Frame) (lim : Limits)
    (caller : option Frame) (now0 now : Z)
    (r : JobStatus) (rest : list (list dbValue)) :
  validRecord lim now0 r ->
  now0 <= now ->
  dbToDomain runtimeCaller (NewJobStatus lim caller now)
    (mkRows (Some (domainToDb r)) rest) = (r, None).
Proof.
  intros Hvalid Hle.
  apply (validRecord_later lim now0 now r Hle) in Hvalid.
  unfold dbToDomain. rewrite Scan_domainToDb.
  unfold scannedDto; cbn [appId jobId jobSt jobTs busDt runId hstId].
  rewrite NewDateFromTime_AsTime
    by (destruct Hvalid; assumption).
  unfold NewJobStatus. rewrite (isUsable_valid lim now r Hvalid).
  destruct r; reflexivity.
Qed.

Lemma exampleRecord_valid : validRecord exampleLimits exampleNow0 exampleRecord.
Proof.
  split; cbn;
    first [ discriminate
          | apply list_elem_of_In; left; reflexivity
          | vm_compute; lia
          | vm_compute; congruence ].
Qed.

Lemma mapper_round_trip_witness :
  dbToDomain exampleCaller exampleNewJobStatus
    (mkRows (Some (domainToDb exampleRecord)) []) = (exampleRecord, None).
Proof.
  apply (mapper_round_trip exampleCaller exampleLimits
           (exampleFrame "jobStatus.NewJobStatus" 0) exampleNow0 exampleNow
           exampleRecord []).
  - exact exampleRecord_valid.
  - vm_compute. discriminate.
Defined.

(** ** Column order *)


(** ** Usability of filter sets *)

Lemma is_Some_None_False {A : Type} : is_Some (@None A) -> False.
Proof. intros [x Hx]; discriminate. Qed.

(** The builder's verdict, by the presence of the four anchor fields. *)
Lemma buildPredicate_accepts (fs : gmap string dbValue) :
  (exists p, buildPredicate fs = inl p) <-> usableFilter fs.
Proof.
  unfold usableFilter, buildPredicate, filterTerms, filterFields.
  cbn [omap list_omap fst snd].
  destruct (fs !! "applicationId") as [a|];
    destruct (fs !! "jobId") as [j|];
    destruct (fs !! "jobStatusTimestamp") as [t|];
    destruct (fs !! "businessDate") as [b|];
    destruct (fs !! "jobStatusCode") as [c|];
    destruct (fs !! "runId") as [r|];
    destruct (fs !! "hostId") as [h|];
    cbn;
    (split;
     [ intros [p Hp]; first [ discriminate Hp | split; eauto ]
     | intros [[H1|H1] [H2|H2]];
       first [ eexists; reflexivity
             | exfalso; eauto using @is_Some_None_False ] ]).
Qed.

(** C3. The Predicate Builder accepts a filter set exactly when at least one
    of applicationId and jobId is present and at least one of
    jobStatusTimestamp and businessDate is present; a filter set that breaks
    the rule makes [GetByQuery] return the InvalidQueryError with no records
    and leaves the state, and with it the list of storage calls, as it
    was. *)
Theorem predicate_builder_usability
    (runtimeCaller : CallSite -> option Frame) (PgErrToCommon : error -> string)
    (newJobStatus : JobStatusDto -> JobStatus * option error)
    (storage : Storage) (fs : gmap string dbValue) (st : State) :
  ((exists p, buildPredicate fs = inl p) <-> usableFilter fs)
  /\ (~ usableFilter fs ->
      GetByQuery runtimeCaller PgErrToCommon newJobStatus storage fs st =
      (Returns ([], Some (NewCommonError (runtimeCaller SiteGetByQuery)
                            (Some ErrRepoInvalidQuery) ErrcdRepoInvalidQuery
                            (DataMap (AnyDb <$> fs)))),
       st)).
Proof.
  split; [apply buildPredicate_accepts |].
  intros Hno. unfold GetByQuery.
  destruct (buildPredicate fs) as [p|err] eqn:Hb.
  - exfalso. apply Hno. apply buildPredicate_accepts. eauto.
  - unfold buildPredicate in Hb.
    destruct (_ && _) in Hb; [discriminate |].
    injection Hb as <-. reflexivity.
Qed.

(** The examples of the specification: a job id with a business date is
    accepted, and gives the predicate over the two columns in canonical
    order; a status code alone is rejected. *)
Example buildPredicate_jobId_date :
  buildPredicate filterJobIdDate =
  inl ("WHERE " ++ quoteIdent "JobId" ++ " = $1 AND " ++
       quoteIdent "BusinessDate" ++ " = $2",
       [DbText "J1"; DbTimestamp (AsTime exampleDate)]).
Proof. vm_compute. reflexivity. Qed.

Example buildPredicate_status_only :
  buildPredicate {[ "jobStatusCode" := DbText "START" ]} = inr ErrRepoInvalidQuery.
Proof. vm_compute. reflexivity. Qed.

Lemma filterJobIdOnly_unusable : ~ usableFilter filterJobIdOnly.
Proof.
  intros [_ [H|H]]; revert H; vm_compute; intros [x Hx]; discriminate.
Qed.

Lemma predicate_builder_usability_witness :
  GetByQuery exampleCaller examplePgErrToCommon exampleNewJobStatus emptyStorage
    filterJobIdOnly exampleState =
  (Returns ([], Some (NewCommonError (exampleCaller SiteGetByQuery)
                        (Some ErrRepoInvalidQuery) ErrcdRepoInvalidQuery
                        (DataMap (AnyDb <$> filterJobIdOnly)))),
   exampleState).
Proof.
  apply (predicate_builder_usability exampleCaller examplePgErrToCommon
           exampleNewJobStatus emptyStorage filterJobIdOnly exampleState).
  exact filterJobIdOnly_unusable.
Defined.

(** ** Converting a result set *)

Section RowsToDomain.

Variable runtimeCaller : CallSite -> option Frame.
Variable newJobStatus : JobStatusDto -> JobStatus * option error.

(** The loop stops at the first row whose conversion fails, whatever it has
    collected until then. *)
Lemma rowsToDomainLoop_first_failure
    (pre : list (list dbValue)) (bad : list dbValue) (post : list (list dbValue))
    (err : error) (result : list JobStatus) :
  allConvert runtimeCaller newJobStatus pre (bad :: post) ->
  snd (dbToDomain runtimeCaller newJobStatus (mkRows (Some bad) post)) = Some err ->
  rowsToDomainLoop runtimeCaller newJobStatus (pre ++ bad :: post)%list result =
  ([], Some (WrapError (runtimeCaller SiteRowsToDomain) err)).
Proof.
  revert result.
  induction pre as [|row pre IH]; intros result Hpre Hbad; cbn.
  - destruct (dbToDomain runtimeCaller newJobStatus (mkRows (Some bad) post)) as [js e].
    cbn in Hbad. subst e. reflexivity.
  - destruct Hpre as [Hrow Hpre].
    destruct (dbToDomain runtimeCaller newJobStatus (mkRows (Some row) (pre ++ bad :: post)%list)) as [js e].
    cbn in Hrow. subst e. apply IH; assumption.
Qed.

(** When every row converts, the loop returns the records collected so far
    followed by those of the rows, and no error. *)
Lemma rowsToDomainLoop_all_convert
    (rows : list (list dbValue)) (result : list JobStatus) :
  allConvert runtimeCaller newJobStatus rows [] ->
  rowsToDomainLoop runtimeCaller newJobStatus rows result = ((result ++ converted runtimeCaller newJobStatus rows [])%list, None).
Proof.
  revert result.
  induction rows as [|row rest IH]; intros result Hall; cbn.
  - rewrite app_nil_r. reflexivity.
  - destruct Hall as [Hrow Hrest].
    rewrite app_nil_r in Hrow |- *.
    destruct (dbToDomain runtimeCaller newJobStatus (mkRows (Some row) rest)) as [js e].
    cbn in Hrow. subst e. cbn.
    rewrite (IH _ Hrest), <- app_assoc. reflexivity.
Qed.

(** A list of rows in which some row fails to convert splits at the first
    such row. *)
Lemma first_failure_split (rows : list (list dbValue)) :
  (exists pre bad post,
      rows = (pre ++ bad :: post)%list
      /\ snd (dbToDomain runtimeCaller newJobStatus (mkRows (Some bad) post)) <> None) ->
  exists pre bad post err,
    rows = (pre ++ bad :: post)%list
    /\ allConvert runtimeCaller newJobStatus pre (bad :: post)
    /\ snd (dbToDomain runtimeCaller newJobStatus (mkRows (Some bad) post)) = Some err.
Proof.
  induction rows as [|row rest IH]; intros (pre & bad & post & Heq & Hbad).
  - destruct pre; discriminate.
  - destruct (snd (dbToDomain runtimeCaller newJobStatus (mkRows (Some row) rest))) as [e|] eqn:Hrow.
    + exists [], row, rest, e. cbn. auto.
    + destruct pre as [|p pre]; cbn in Heq; injection Heq as Hp Hrest.
      * subst bad post. congruence.
      * subst p rest.
        destruct IH as (pre' & bad' & post' & err & Heq' & Hall & Herr).
        { exists pre, bad, post. auto. }
        rewrite Heq' in Hrow |- *.
        exists (row :: pre'), bad', post', err. cbn. repeat split; assumption.
Qed.

(** The loop returns records only together with no error. *)
Lemma rowsToDomainLoop_error_nil
    (rows : list (list dbValue)) (result data : list JobStatus) (e : error) :
  rowsToDomainLoop runtimeCaller newJobStatus rows result = (data, Some e) -> data = [].
Proof.
  revert result.
  induction rows as [|row rest IH]; intros result; cbn.
  - discriminate.
  - destruct (dbToDomain runtimeCaller newJobStatus (mkRows (Some row) rest)) as [js [err|]].
    + intros [= <- _]. reflexivity.
    + apply IH.
Qed.

End RowsToDomain.

(** C4. If the conversion of some row of a result set fails, [rowsToDomain]
    stops at the first row whose conversion fails (the rows before it all
    converted) and returns the nil list together with that row's error,
    wrapped with the provenance of [rowsToDomain]. *)
Theorem rowsToDomain_no_partial_results
    (runtimeCaller : CallSite -> option Frame)
    (newJobStatus : JobStatusDto -> JobStatus * option error) (rows : Rows) :
  (exists pre bad post,
      pending rows = (pre ++ bad :: post)%list
      /\ snd (dbToDomain runtimeCaller newJobStatus (mkRows (Some bad) post)) <> None) ->
  exists pre bad post err,
    pending rows = (pre ++ bad :: post)%list
    /\ allConvert runtimeCaller newJobStatus pre (bad :: post)
    /\ snd (dbToDomain runtimeCaller newJobStatus (mkRows (Some bad) post)) = Some err
    /\ rowsToDomain runtimeCaller newJobStatus rows =
       ([], Some (WrapError (runtimeCaller SiteRowsToDomain) err)).
Proof.
  intros Hfail.
  destruct (first_failure_split runtimeCaller newJobStatus (pending rows) Hfail)
    as (pre & bad & post & err & Heq & Hall & Herr).
  exists pre, bad, post, err. repeat split; try assumption.
  unfold rowsToDomain. rewrite Heq.
  apply rowsToDomainLoop_first_failure; assumption.
Qed.

Lemma rowsToDomain_no_partial_results_witness :
  exists pre bad post err,
    [domainToDb exampleRecord; exampleNullRow] = (pre ++ bad :: post)%list
    /\ allConvert exampleCaller exampleNewJobStatus pre (bad :: post)
    /\ snd (dbToDomain exampleCaller exampleNewJobStatus (mkRows (Some bad) post)) = Some err
    /\ rowsToDomain exampleCaller exampleNewJobStatus
         (mkRows None [domainToDb exampleRecord; exampleNullRow]) =
       ([], Some (WrapError (exampleCaller SiteRowsToDomain) err)).
Proof.
  apply (rowsToDomain_no_partial_results exampleCaller exampleNewJobStatus
           (mkRows None [domainToDb exampleRecord; exampleNullRow])).
  exists [domainToDb exampleRecord], exampleNullRow, [].
  split; [reflexivity |].
  vm_compute. discriminate.
Defined.

(** ** The read operations, step by step *)

(** Runs the monadic steps of an operation on an explicit state. *)
Ltac run_steps :=
  unfold derefDB, dbQuery, dbExec, dbClose, sqlOpen;
  unfold mbind, M_bind, mret, M_ret, getRepo, getCalls, record, panic, setDB;
  cbn.

Section ReadOperations.

Variable runtimeCaller : CallSite -> option Frame.
Variable PgErrToCommon : error -> string.
Variable newJobStatus : JobStatusDto -> JobStatus * option error.
Variable storage : Storage.

(** What a call of [GetByJobId] does, by the state of the receiver and the
    answer of the storage. *)
Lemma GetByJobId_run (jobId : JobIdType) (st : State) :
  GetByJobId runtimeCaller PgErrToCommon newJobStatus storage jobId st =
  match DB (repo st) with
  | None => (Panics, st)
  | Some db =>
      let stmt := sqlSelect (repo st) ++ sqlWhereJobId (repo st) in
      let args := [DbText jobId] in
      match queryResult storage (calls st) db stmt args with
      | inr err =>
          (Returns ([], Some (NewCommonError (runtimeCaller SiteGetByJobIdQuery)
                                (Some err) (PgErrToCommon err)
                                (DataMap {[ "jobId" := AnyJobId jobId ]}))),
           mkState (repo st) (calls st ++ [CallQuery db stmt args]))
      | inl rs =>
          let st' := mkState (repo st)
                       ((calls st ++ [CallQuery db stmt args]) ++ [CallRowsClose]) in
          match rowsToDomain runtimeCaller newJobStatus (mkRows None rs) with
          | (_, Some e) =>
              (Returns ([], Some (WrapError (runtimeCaller SiteGetByJobIdRows) e)), st')
          | (data, None) => (Returns (data, None), st')
          end
      end
  end.
Proof.
  destruct st as [r cs]. unfold GetByJobId. run_steps.
  destruct (DB r) as [db|]; cbn; [|reflexivity].
  destruct (queryResult storage cs db _ _) as [rs|err]; cbn; [|reflexivity].
  unfold rowsToDomain; cbn.
  destruct (rowsToDomainLoop runtimeCaller newJobStatus rs []) as [data [e|]];
    reflexivity.
Qed.

(** What a call of [GetByJobIdBusinessDate] does. *)
Lemma GetByJobIdBusinessDate_run (jobId : JobIdType) (busDt : Date) (st : State) :
  GetByJobIdBusinessDate runtimeCaller PgErrToCommon newJobStatus storage jobId busDt st =
  match DB (repo st) with
  | None => (Panics, st)
  | Some db =>
      let stmt := sqlSelect (repo st) ++ sqlWhereJobIdBusDt (repo st) in
      let args := [DbText jobId; DbTimestamp (dateTime busDt)] in
      match queryResult storage (calls st) db stmt args with
      | inr err =>
          (Returns ([], Some (NewCommonError (runtimeCaller SiteGetByJobIdBusDtQuery)
                                (Some err) (PgErrToCommon err)
                                (DataMap (<[ "busDt" := AnyDate busDt ]>
                                            {[ "jobId" := AnyJobId jobId ]})))),
           mkState (repo st) (calls st ++ [CallQuery db stmt args]))
      | inl rs =>
          let st' := mkState (repo st)
                       ((calls st ++ [CallQuery db stmt args]) ++ [CallRowsClose]) in
          match rowsToDomain runtimeCaller newJobStatus (mkRows None rs) with
          | (_, Some e) =>
              (Returns ([], Some (WrapError (runtimeCaller SiteGetByJobIdBusDtRows) e)), st')
          | (data, None) => (Returns (data, None), st')
          end
      end
  end.
Proof.
  destruct st as [r cs]. unfold GetByJobIdBusinessDate. run_steps.
  destruct (DB r) as [db|]; cbn; [|reflexivity].
  destruct (queryResult storage cs db _ _) as [rs|err]; cbn; [|reflexivity].
  unfold rowsToDomain; cbn.
  destruct (rowsToDomainLoop runtimeCaller newJobStatus rs []) as [data [e|]];
    reflexivity.
Qed.

End ReadOperations.

(** ** Empty results *)

(** C5. When the storage answers the query of [GetByJobId], or of
    [GetByJobIdBusinessDate], with a cursor over zero rows, the operation
    returns the empty list and no error. *)
Theorem read_not_found_is_success
    (runtimeCaller : CallSite -> option Frame) (PgErrToCommon : error -> string)
    (newJobStatus : JobStatusDto -> JobStatus * option error)
    (storage : Storage) (st : State) (db : nat)
    (jobId : JobIdType) (busDt : Date) :
  DB (repo st) = Some db ->
  (queryResult storage (calls st) db
     (sqlSelect (repo st) ++ sqlWhereJobId (repo st)) [DbText jobId] = inl [] ->
   fst (GetByJobId runtimeCaller PgErrToCommon newJobStatus storage jobId st) =
   Returns ([], None))
  /\ (queryResult storage (calls st) db
        (sqlSelect (repo st) ++ sqlWhereJobIdBusDt (repo st))
        [DbText jobId; DbTimestamp (dateTime busDt)] = inl [] ->
      fst (GetByJobIdBusinessDate runtimeCaller PgErrToCommon newJobStatus storage
             jobId busDt st) =
      Returns ([], None)).
Proof.
  intros Hdb; split; intros Hq.
  - rewrite GetByJobId_run, Hdb. cbn zeta. rewrite Hq. reflexivity.
  - rewrite GetByJobIdBusinessDate_run, Hdb. cbn zeta. rewrite Hq. reflexivity.
Qed.

Lemma read_not_found_is_success_witness :
  fst (GetByJobId exampleCaller examplePgErrToCommon exampleNewJobStatus
         emptyStorage "J1" exampleState) = Returns ([], None)
  /\ fst (GetByJobIdBusinessDate exampleCaller examplePgErrToCommon
            exampleNewJobStatus emptyStorage "J1" exampleDate exampleState) =
     Returns ([], None).
Proof.
  destruct (read_not_found_is_success exampleCaller examplePgErrToCommon
              exampleNewJobStatus emptyStorage exampleState 0%nat "J1" exampleDate)
    as [H1 H2]; [reflexivity |].
  split; [apply H1 | apply H2]; reflexivity.
Defined.

(** ** Failures of the row-to-domain path *)

(** C6. In [dbToDomain], a row whose columns cannot be read by [Scan] gives
    the zero record and a classified error of kind ScanError that wraps the
    scan's error and carries the cursor; a row that scans gives exactly what
    the domain constructor returns for the scanned fields, and when those
    fail the domain rules that is the constructor's error of kind PropsError
    (the data-validity failure), which is not a ScanError and has the
    primitive props error on its chain. *)
Theorem dbToDomain_failure_kinds
    (runtimeCaller : CallSite -> option Frame) (lim : Limits)
    (caller : option Frame) (now : Z) (rows : Rows) :
  (forall err : error,
      Scan rows = inr err ->
      exists ce : CommonError,
        dbToDomain runtimeCaller (NewJobStatus lim caller now) rows =
        (zeroJobStatus, Some (commonError ce))
        /\ Code ce = ErrcdRepoScan /\ Err ce = Some err /\ Data ce = DataRows rows)
  /\ (forall v : Scanned,
         Scan rows = inl v ->
         dbToDomain runtimeCaller (NewJobStatus lim caller now) rows =
         NewJobStatus lim caller now (scannedDto v)
         /\ (isUsable lim now (scannedDto v) = false ->
             exists ce : CommonError,
               dbToDomain runtimeCaller (NewJobStatus lim caller now) rows =
               (zeroJobStatus, Some (commonError ce))
               /\ Code ce = ErrcdDomainProps
               /\ Code ce <> ErrcdRepoScan
               /\ isError "props error" (commonError ce) = true
               /\ isError "scan error" (commonError ce) = false)).
Proof.
  split.
  - intros err Hscan. unfold dbToDomain. rewrite Hscan.
    destruct (runtimeCaller SiteDbToDomainScan) as [fr|]; cbn;
      eexists (mkCommonError _ _ _ _ _ _); repeat split.
  - intros v Hscan. unfold dbToDomain. rewrite Hscan.
    split; [reflexivity |].
    intros Hbad. unfold NewJobStatus. rewrite Hbad.
    destruct caller as [fr|]; cbn;
      eexists (mkCommonError _ _ _ _ _ _);
      (split; [reflexivity |]); cbn; repeat split; discriminate.
Qed.

Lemma dbToDomain_failure_kinds_witness :
  (exists ce : CommonError,
      dbToDomain exampleCaller exampleNewJobStatus (mkRows (Some exampleNullRow) []) =
      (zeroJobStatus, Some (commonError ce))
      /\ Code ce = ErrcdRepoScan)
  /\ (exists ce : CommonError,
         dbToDomain exampleCaller exampleNewJobStatus
           (mkRows (Some (domainToDb unknownCodeRecord)) []) =
         (zeroJobStatus, Some (commonError ce))
         /\ Code ce = ErrcdDomainProps).
Proof.
  split.
  - destruct (proj1 (dbToDomain_failure_kinds exampleCaller exampleLimits
                       (exampleFrame "jobStatus.NewJobStatus" 0) exampleNow
                       (mkRows (Some exampleNullRow) []))
                _ eq_refl)
      as (ce & Heq & Hcode & _).
    exists ce; split; assumption.
  - destruct (proj2 (dbToDomain_failure_kinds exampleCaller exampleLimits
                       (exampleFrame "jobStatus.NewJobStatus" 0) exampleNow
                       (mkRows (Some (domainToDb unknownCodeRecord)) []))
                _ eq_refl)
      as (_ & Hbad).
    destruct (Hbad eq_refl) as (ce & Heq & Hcode & _).
    exists ce; split; assumption.
Defined.

(** ** The payload of a failed read *)

Lemma carriesJobId_query_error (caller : option Frame) (err : error)
    (code : string) (jobId : JobIdType) :
  carriesJobId jobId
    (NewCommonError caller (Some err) code (DataMap {[ "jobId" := AnyJobId jobId ]})).
Proof.
  unfold carriesJobId.
  destruct caller as [fr|]; cbn;
    eexists (mkCommonError _ _ _ _ _ _), _;
    (split; [reflexivity |]); (split; [reflexivity |]);
    apply lookup_singleton_eq.
Qed.

(** The loop returns an error only for the first row whose conversion
    fails, and the error is that row's, wrapped by [rowsToDomain]. *)
Lemma rowsToDomainLoop_error_first_failure
    (runtimeCaller : CallSite -> option Frame)
    (newJobStatus : JobStatusDto -> JobStatus * option error)
    (rows : list (list dbValue)) (result data : list JobStatus) (cerr : error) :
  rowsToDomainLoop runtimeCaller newJobStatus rows result = (data, Some cerr) ->
  exists pre bad post derr,
    rows = (pre ++ bad :: post)%list
    /\ allConvert runtimeCaller newJobStatus pre (bad :: post)
    /\ snd (dbToDomain runtimeCaller newJobStatus (mkRows (Some bad) post)) = Some derr
    /\ cerr = WrapError (runtimeCaller SiteRowsToDomain) derr.
Proof.
  revert result.
  induction rows as [|row rest IH]; intros result; cbn; [discriminate |].
  destruct (dbToDomain runtimeCaller newJobStatus (mkRows (Some row) rest))
    as [js [derr|]] eqn:Hrow.
  - intros [= _ <-]. exists [], row, rest, derr. cbn. rewrite Hrow. auto.
  - intros Hloop.
    destruct (IH _ Hloop) as (pre & bad & post & derr & -> & Hall & Hbad & ->).
    exists (row :: pre), bad, post, derr. cbn. rewrite Hrow. auto.
Qed.

(** What [dbToDomain] returns for a row, by the outcome of the scan. *)
Lemma dbToDomain_error_origin
    (runtimeCaller : CallSite -> option Frame)
    (newJobStatus : JobStatusDto -> JobStatus * option error)
    (rows : Rows) (derr : error) :
  snd (dbToDomain runtimeCaller newJobStatus rows) = Some derr ->
  (exists serr,
      Scan rows = inr serr
      /\ derr = NewCommonError (runtimeCaller SiteDbToDomainScan) (Some serr)
                  ErrcdRepoScan (DataRows rows))
  \/ (exists v, Scan rows = inl v /\ snd (newJobStatus (scannedDto v)) = Some derr).
Proof.
  unfold dbToDomain.
  destruct (Scan rows) as [v|serr]; cbn.
  - intros Hnew. right. exists v. auto.
  - intros [= <-]. left. exists serr. auto.
Qed.

(** C7, as the code has it. A failed [GetByJobId] fails in one of two ways.
    When the query itself fails, the error is the classified error made on
    the spot, with the job id as payload under the key jobId.  When a row
    fails to scan or to convert, the error is the error [dbToDomain] made
    for the first such row, wrapped by [rowsToDomain] and then by
    [GetByJobId]; the classified error found on it is the one of that
    original error.  If the row failed to scan, that is the ScanError made in
    [dbToDomain], whose payload is the cursor standing on the row, and the
    error does not carry the job id; if the row scanned and the domain
    constructor rejected it, it is the constructor's own error. *)
Theorem GetByJobId_failure_payload
    (runtimeCaller : CallSite -> option Frame) (PgErrToCommon : error -> string)
    (newJobStatus : JobStatusDto -> JobStatus * option error)
    (storage : Storage) (jobId : JobIdType) (st st' : State)
    (data : list JobStatus) (e : error) :
  GetByJobId runtimeCaller PgErrToCommon newJobStatus storage jobId st =
  (Returns (data, Some e), st') ->
  (exists db derr,
      DB (repo st) = Some db
      /\ queryResult storage (calls st) db
           (sqlSelect (repo st) ++ sqlWhereJobId (repo st)) [DbText jobId] = inr derr
      /\ e = NewCommonError (runtimeCaller SiteGetByJobIdQuery) (Some derr)
               (PgErrToCommon derr) (DataMap {[ "jobId" := AnyJobId jobId ]})
      /\ carriesJobId jobId e)
  \/ (exists db pre bad post derr,
         DB (repo st) = Some db
         /\ queryResult storage (calls st) db
              (sqlSelect (repo st) ++ sqlWhereJobId (repo st)) [DbText jobId] =
            inl (pre ++ bad :: post)%list
         /\ allConvert runtimeCaller newJobStatus pre (bad :: post)
         /\ snd (dbToDomain runtimeCaller newJobStatus (mkRows (Some bad) post)) =
            Some derr
         /\ rowsToDomain runtimeCaller newJobStatus
              (mkRows None (pre ++ bad :: post)%list) =
            ([], Some (WrapError (runtimeCaller SiteRowsToDomain) derr))
         /\ e = WrapError (runtimeCaller SiteGetByJobIdRows)
                  (WrapError (runtimeCaller SiteRowsToDomain) derr)
         /\ asCommonError e = asCommonError derr
         /\ ((exists (serr : error) (ce : CommonError),
                 Scan (mkRows (Some bad) post) = inr serr
                 /\ asCommonError e = Some ce
                 /\ Code ce = ErrcdRepoScan
                 /\ Err ce = Some serr
                 /\ Data ce = DataRows (mkRows (Some bad) post)
                 /\ ~ carriesJobId jobId e)
             \/ (exists v : Scanned,
                    Scan (mkRows (Some bad) post) = inl v
                    /\ snd (newJobStatus (scannedDto v)) = Some derr))).
Proof.
  rewrite GetByJobId_run.
  destruct (DB (repo st)) as [db|]; [|discriminate].
  cbv zeta.
  destruct (queryResult storage (calls st) db _ _) as [rs|derr] eqn:Hq.
  - destruct (rowsToDomain runtimeCaller newJobStatus (mkRows None rs))
      as [d [cerr|]] eqn:Hrows; [|discriminate].
    intros [= _ <- _]. right.
    unfold rowsToDomain in Hrows; cbn [pending] in Hrows.
    destruct (rowsToDomainLoop_error_first_failure _ _ _ _ _ _ Hrows)
      as (pre & bad & post & derr & -> & Hall & Hbad & ->).
    exists db, pre, bad, post, derr.
    split; [reflexivity |]. split; [exact Hq |].
    split; [exact Hall |]. split; [exact Hbad |].
    split.
    { unfold rowsToDomain; cbn [pending].
      apply rowsToDomainLoop_first_failure; assumption. }
    split; [reflexivity |]. split; [reflexivity |].
    destruct (dbToDomain_error_origin _ _ _ _ Hbad) as [(serr & Hscan & ->)|(v & Hscan & Hnew)].
    + left.
      destruct (runtimeCaller SiteDbToDomainScan) as [fr|];
        cbn [NewCommonError WrapError asCommonError];
        exists serr; eexists (mkCommonError _ _ _ _ _ _);
        (split; [exact Hscan |]); (split; [reflexivity |]);
        cbn [Code Err Data]; (repeat (split; [reflexivity |]));
        intros (ce & m & Hce & Hdata & _);
        injection Hce as <-; discriminate Hdata.
    + right. exists v. auto.
  - intros [= _ <- _]. left. exists db, derr.
    repeat split; first [reflexivity | assumption | apply carriesJobId_query_error].
Qed.

(** C7 as stated fails: the repository of the example, reading a result set
    whose second row has NULL in RunId, fails with an error whose classified
    error is the ScanError carrying the cursor; neither that error nor any
    error on its unwrap chain carries the job id. *)
Lemma GetByJobId_rows_failure_payload :
  exists st' : State,
    GetByJobId exampleCaller examplePgErrToCommon exampleNewJobStatus
      nullRowStorage "J1" exampleState =
    (Returns ([], Some exampleRowsError), st')
    /\ (exists ce : CommonError,
           asCommonError exampleRowsError = Some ce
           /\ Code ce = ErrcdRepoScan
           /\ Data ce = DataRows (mkRows (Some exampleNullRow) []))
    /\ ~ carriesJobId "J1" exampleRowsError
    /\ Forall (fun e' => ~ carriesJobId "J1" e') (chain exampleRowsError).
Proof.
  assert (Hno : forall e', asCommonError e' = asCommonError exampleRowsError
                           \/ asCommonError e' = None ->
                           ~ carriesJobId "J1" e').
  { intros e' [He|He] (ce & m & Hce & Hdata & _); rewrite He in Hce.
    - cbn in Hce. injection Hce as <-. discriminate Hdata.
    - discriminate Hce. }
  eexists. split; [vm_compute; reflexivity |]. split; [|split].
  - eexists. split; [reflexivity |]. split; reflexivity.
  - apply Hno. left; reflexivity.
  - repeat constructor; apply Hno; first [left; reflexivity | right; reflexivity].
Qed.

Lemma GetByJobId_failure_payload_witness :
  (exists db derr,
      DB (repo exampleState) = Some db
      /\ queryResult nullRowStorage (calls exampleState) db
           (sqlSelect (repo exampleState) ++ sqlWhereJobId (repo exampleState))
           [DbText "J1"] = inr derr
      /\ exampleRowsError =
         NewCommonError (exampleCaller SiteGetByJobIdQuery) (Some derr)
           (examplePgErrToCommon derr) (DataMap {[ "jobId" := AnyJobId "J1" ]})
      /\ carriesJobId "J1" exampleRowsError)
  \/ (exists db pre bad post derr,
         DB (repo exampleState) = Some db
         /\ queryResult nullRowStorage (calls exampleState) db
              (sqlSelect (repo exampleState) ++ sqlWhereJobId (repo exampleState))
              [DbText "J1"] = inl (pre ++ bad :: post)%list
         /\ allConvert exampleCaller exampleNewJobStatus pre (bad :: post)
         /\ snd (dbToDomain exampleCaller exampleNewJobStatus
                   (mkRows (Some bad) post)) = Some derr
         /\ rowsToDomain exampleCaller exampleNewJobStatus
              (mkRows None (pre ++ bad :: post)%list) =
            ([], Some (WrapError (exampleCaller SiteRowsToDomain) derr))
         /\ exampleRowsError =
            WrapError (exampleCaller SiteGetByJobIdRows)
              (WrapError (exampleCaller SiteRowsToDomain) derr)
         /\ asCommonError exampleRowsError = asCommonError derr
         /\ ((exists (serr : error) (ce : CommonError),
                 Scan (mkRows (Some bad) post) = inr serr
                 /\ asCommonError exampleRowsError = Some ce
                 /\ Code ce = ErrcdRepoScan
                 /\ Err ce = Some serr
                 /\ Data ce = DataRows (mkRows (Some bad) post)
                 /\ ~ carriesJobId "J1" exampleRowsError)
             \/ (exists v : Scanned,
                    Scan (mkRows (Some bad) post) = inl v
                    /\ snd (exampleNewJobStatus (scannedDto v)) = Some derr))).
Proof.
  eapply (GetByJobId_failure_payload exampleCaller examplePgErrToCommon
            exampleNewJobStatus nullRowStorage "J1" exampleState).
  vm_compute. reflexivity.
Defined.

(** ** Wrapping for propagation *)

Lemma string_app_assoc (s1 s2 s3 : string) :
  ((s1 ++ s2) ++ s3 = s1 ++ (s2 ++ s3))%string.
Proof.
  induction s1 as [|c s1 IH]; [reflexivity |].
  change (String c ((s1 ++ s2) ++ s3) = String c (s1 ++ (s2 ++ s3))).
  f_equal. exact IH.
Qed.

(** C8. [WrapError] keeps the error it is given on the unwrap chain, so that
    the classified error found by [errors.As], and with it the kind and the
    provenance recorded at the origin, is the original one.  Its text is the
    file, the function and the line of the wrapping call site (or the words
    unknown caller when the runtime cannot tell them), then an arrow, then
    the whole text of the original, which for a classified error starts with
    the file, function and line of its own origin; a second layer puts its
    own call site in front of the first, and the same holds through any
    number of layers. *)
Theorem WrapError_preserves_kind (callers : list (option Frame))
    (caller : option Frame) (fr outer : Frame) (ce : CommonError) (e : error) :
  Unwrap (WrapError caller e) = Some e
  /\ asCommonError (WrapError caller e) = asCommonError e
  /\ Error (WrapError caller e) = provenance caller ++ " <- " ++ Error e
  /\ asCommonError (wrapThrough callers e) = asCommonError e
  /\ Error (wrapThrough callers e) = provenanceTrail callers ++ Error e
  /\ Error (WrapError (Some fr) e) =
     frameFile fr ++ "::" ++ frameFunc fr ++ "::" ++ pretty (frameLine fr) ++
     " <- " ++ Error e
  /\ Error (WrapError None e) = "unknown caller <- " ++ Error e
  /\ Error (WrapError (Some outer) (WrapError (Some fr) e)) =
     frameFile outer ++ "::" ++ frameFunc outer ++ "::" ++ pretty (frameLine outer) ++
     " <- " ++
     frameFile fr ++ "::" ++ frameFunc fr ++ "::" ++ pretty (frameLine fr) ++
     " <- " ++ Error e
  /\ asCommonError (WrapError (Some outer) (WrapError (Some fr) (commonError ce))) =
     Some ce
  /\ Error (WrapError (Some fr) (commonError ce)) =
     frameFile fr ++ "::" ++ frameFunc fr ++ "::" ++ pretty (frameLine fr) ++
     " <- " ++
     FileName ce ++ "::" ++ FuncName ce ++ "::" ++ pretty (LineNo ce) ++
     " Code " ++ Code ce ++ " | " ++
     match Err ce with
     | Some inner => Error inner
     | None => "<nil>"
     end.
Proof.
  split; [reflexivity |].
  split; [reflexivity |].
  split; [reflexivity |].
  split.
  { induction callers as [|c callers IH]; [reflexivity | exact IH]. }
  split.
  { induction callers as [|c callers IH]; [reflexivity |].
    change (Error (WrapError c (wrapThrough callers e)) =
            (provenance c ++ " <- " ++ provenanceTrail callers) ++ Error e).
    change (Error (WrapError c (wrapThrough callers e)))
      with (provenance c ++ " <- " ++ Error (wrapThrough callers e)).
    rewrite IH, !string_app_assoc. reflexivity. }
  split.
  { unfold WrapError, provenance. cbn [Error].
    rewrite !string_app_assoc. reflexivity. }
  split; [reflexivity |].
  split.
  { unfold WrapError, provenance. cbn [Error].
    rewrite !string_app_assoc. reflexivity. }
  split.
  { destruct ce; reflexivity. }
  unfold WrapError, provenance, commonError. cbn [Error].
  rewrite !string_app_assoc. reflexivity.
Qed.

(** ** The receiver *)

Section Receiver.

Variable runtimeCaller : CallSite -> option Frame.
Variable PgErrToCommon : error -> string.
Variable ErrRepoNoDsn : error.
Variable ErrcdRepoNoDsn : string.
Variable newJobStatus : JobStatusDto -> JobStatus * option error.
Variable storage : Storage.

Lemma Add_repo (jobStatus : JobStatus) (st : State) :
  repo (snd (Add runtimeCaller PgErrToCommon storage jobStatus st)) = repo st.
Proof.
  destruct st as [r cs]. unfold Add. run_steps.
  destruct (DB r) as [db|]; cbn; [|reflexivity].
  destruct (execResult storage cs db _ _); reflexivity.
Qed.

Lemma Close_repo (st : State) :
  repo (snd (Close storage st)) = repo st.
Proof.
  destruct st as [r cs]. unfold Close. run_steps.
  destruct (DB r) as [db|]; reflexivity.
Qed.

Lemma GetByJobId_repo (jobId : JobIdType) (st : State) :
  repo (snd (GetByJobId runtimeCaller PgErrToCommon newJobStatus storage jobId st)) =
  repo st.
Proof.
  rewrite GetByJobId_run.
  destruct (DB (repo st)) as [db|]; [|reflexivity].
  cbv zeta. destruct (queryResult storage (calls st) db _ _); [|reflexivity].
  destruct (rowsToDomain _ _ _) as [data [e|]]; reflexivity.
Qed.

Lemma GetByJobIdBusinessDate_repo (jobId : JobIdType) (busDt : Date) (st : State) :
  repo (snd (GetByJobIdBusinessDate runtimeCaller PgErrToCommon newJobStatus storage
               jobId busDt st)) =
  repo st.
Proof.
  rewrite GetByJobIdBusinessDate_run.
  destruct (DB (repo st)) as [db|]; [|reflexivity].
  cbv zeta. destruct (queryResult storage (calls st) db _ _); [|reflexivity].
  destruct (rowsToDomain _ _ _) as [data [e|]]; reflexivity.
Qed.

(** What [Open] does to the receiver: nothing when it fails, and on success
    it stores the new handle in [DB]. *)
Lemma Open_repo (st : State) :
  let res := Open runtimeCaller ErrRepoNoDsn ErrcdRepoNoDsn storage st in
  match fst res with
  | Returns None =>
      repo (snd res) =
      {| DSN := DSN (repo st); DB := Some (List.length (calls st));
         sqlInsert := sqlInsert (repo st); sqlSelect := sqlSelect (repo st);
         sqlWhereJobId := sqlWhereJobId (repo st);
         sqlWhereJobIdBusDt := sqlWhereJobIdBusDt (repo st) |}
  | _ => repo (snd res) = repo st
  end.
Proof.
  destruct st as [r cs]. unfold Open. run_steps.
  destruct (String.eqb (DSN r) ""); cbn; [reflexivity |].
  destruct (openResult storage cs "pgx" (DSN r)); reflexivity.
Qed.

End Receiver.

(** C9. A call of [Add], [GetByJobId], [GetByJobIdBusinessDate] or [Close]
    leaves every field of the receiver (the DSN, the handle, the statement
    texts) as it was, whatever the storage answers and also when the call
    panics on a nil handle; [Open] changes no field but the handle [DB],
    which it sets when the connection is opened. *)
Theorem receiver_mutated_only_by_Open
    (runtimeCaller : CallSite -> option Frame) (PgErrToCommon : error -> string)
    (ErrRepoNoDsn : error) (ErrcdRepoNoDsn : string)
    (newJobStatus : JobStatusDto -> JobStatus * option error)
    (storage : Storage) (st : State)
    (jobStatus : JobStatus) (jobId : JobIdType) (busDt : Date) :
  repo (snd (Add runtimeCaller PgErrToCommon storage jobStatus st)) = repo st
  /\ repo (snd (GetByJobId runtimeCaller PgErrToCommon newJobStatus storage
                  jobId st)) = repo st
  /\ repo (snd (GetByJobIdBusinessDate runtimeCaller PgErrToCommon newJobStatus
                  storage jobId busDt st)) = repo st
  /\ repo (snd (Close storage st)) = repo st
  /\ (let res := Open runtimeCaller ErrRepoNoDsn ErrcdRepoNoDsn storage st in
      DSN (repo (snd res)) = DSN (repo st)
      /\ sqlInsert (repo (snd res)) = sqlInsert (repo st)
      /\ sqlSelect (repo (snd res)) = sqlSelect (repo st)
      /\ sqlWhereJobId (repo (snd res)) = sqlWhereJobId (repo st)
      /\ sqlWhereJobIdBusDt (repo (snd res)) = sqlWhereJobIdBusDt (repo st)
      /\ (fst res = Returns None \/ DB (repo (snd res)) = DB (repo st))).
Proof.
  split; [apply Add_repo |].
  split; [apply GetByJobId_repo |].
  split; [apply GetByJobIdBusinessDate_repo |].
  split; [apply Close_repo |].
  pose proof (Open_repo runtimeCaller ErrRepoNoDsn ErrcdRepoNoDsn storage st) as Hopen.
  cbv zeta in *.
  destruct (fst (Open runtimeCaller ErrRepoNoDsn ErrcdRepoNoDsn storage st))
    as [[err|]|]; rewrite Hopen; cbn; repeat split; auto.
Qed.

(** [Open] does set the handle: opening the new repository of the example
    stores handle 0 in [DB]. *)
Example Open_sets_DB :
  Open exampleCaller ErrRepoOther ErrcdRepoOther emptyStorage
    (mkState (NewRepoDB "postgres://slo") []) =
  (Returns None, exampleState).
Proof. vm_compute. reflexivity. Qed.

(** ** No records together with an error *)

(** C10. When [GetByJobId] or [GetByJobIdBusinessDate] returns an error, the
    list of records it returns is nil, whether the query, the scan of a row
    or the validation of a row failed. *)
Theorem read_error_returns_no_records
    (runtimeCaller : CallSite -> option Frame) (PgErrToCommon : error -> string)
    (newJobStatus : JobStatusDto -> JobStatus * option error)
    (storage : Storage) (jobId : JobIdType) (busDt : Date) (st st' : State)
    (data : list JobStatus) (e : error) :
  (GetByJobId runtimeCaller PgErrToCommon newJobStatus storage jobId st =
   (Returns (data, Some e), st') -> data = [])
  /\ (GetByJobIdBusinessDate runtimeCaller PgErrToCommon newJobStatus storage
        jobId busDt st =
      (Returns (data, Some e), st') -> data = []).
Proof.
  split.
  - rewrite GetByJobId_run.
    destruct (DB (repo st)) as [db|]; [|discriminate].
    cbv zeta. destruct (queryResult storage (calls st) db _ _) as [rs|derr].
    + destruct (rowsToDomain _ _ _) as [d [cerr|]]; [|discriminate].
      intros [= <- _ _]. reflexivity.
    + intros [= <- _ _]. reflexivity.
  - rewrite GetByJobIdBusinessDate_run.
    destruct (DB (repo st)) as [db|]; [|discriminate].
    cbv zeta. destruct (queryResult storage (calls st) db _ _) as [rs|derr].
    + destruct (rowsToDomain _ _ _) as [d [cerr|]]; [|discriminate].
      intros [= <- _ _]. reflexivity.
    + intros [= <- _ _]. reflexivity.
Qed.

Lemma read_error_returns_no_records_witness :
  GetByJobId exampleCaller examplePgErrToCommon exampleNewJobStatus
    nullRowStorage "J1" exampleState =
  (Returns ([], Some exampleRowsError), exampleRowsFinalState)
  /\ (@nil JobStatus) = [].
Proof.
  assert (Hrun : GetByJobId exampleCaller examplePgErrToCommon exampleNewJobStatus
                   nullRowStorage "J1" exampleState =
                 (Returns ([], Some exampleRowsError), exampleRowsFinalState))
    by (vm_compute; reflexivity).
  split; [exact Hrun |].
  exact (proj1 (read_error_returns_no_records exampleCaller examplePgErrToCommon
                  exampleNewJobStatus nullRowStorage "J1" exampleDate
                  exampleState exampleRowsFinalState [] exampleRowsError) Hrun).
Defined.

(** * Further properties of the adapter *)

(** ** Opening and closing *)

Section Lifecycle.

Variable runtimeCaller : CallSite -> option Frame.
Variable PgErrToCommon : error -> string.
Variable ErrRepoNoDsn : error.
Variable ErrcdRepoNoDsn : string.
Variable newJobStatus : JobStatusDto -> JobStatus * option error.
Variable storage : Storage.

(** What a call of [Open] does, by the DSN and the answer of the driver. *)
Lemma Open_run (st : State) :
  Open runtimeCaller ErrRepoNoDsn ErrcdRepoNoDsn storage st =
  if String.eqb (DSN (repo st)) "" then
    (Returns (Some (NewCommonError (runtimeCaller SiteOpenNoDsn)
                      (Some ErrRepoNoDsn) ErrcdRepoNoDsn DataNil)), st)
  else
    match openResult storage (calls st) "pgx" (DSN (repo st)) with
    | Some err =>
        (Returns (Some (NewCommonError (runtimeCaller SiteOpenConn)
                          (Some err) ErrcdRepoConnException DataNil)),
         mkState (repo st) (calls st ++ [CallOpen "pgx" (DSN (repo st))]))
    | None =>
        (Returns None,
         mkState (withDB (repo st) (Some (List.length (calls st))))
                 (calls st ++ [CallOpen "pgx" (DSN (repo st))]))
    end.
Proof.
  destruct st as [r cs]. unfold Open. run_steps.
  destruct (String.eqb (DSN r) ""); cbn; [reflexivity |].
  destruct (openResult storage cs "pgx" (DSN r)); reflexivity.
Qed.

(** What a call of [Add] does on an open handle. *)
Lemma Add_run (jobStatus : JobStatus) (st : State) :
  Add runtimeCaller PgErrToCommon storage jobStatus st =
  match DB (repo st) with
  | None => (Panics, st)
  | Some db =>
      (Returns
         match execResult storage (calls st) db (sqlInsert (repo st))
                 (domainToDb jobStatus) with
         | Some err =>
             Some (NewCommonError (runtimeCaller SiteAdd) (Some err)
                     (PgErrToCommon err) (DataJobStatus jobStatus))
         | None => None
         end,
       mkState (repo st)
         (calls st ++ [CallExec db (sqlInsert (repo st)) (domainToDb jobStatus)]))
  end.
Proof.
  destruct st as [r cs]. unfold Add. run_steps.
  destruct (DB r) as [db|]; cbn; [|reflexivity].
  destruct (execResult storage cs db _ _); reflexivity.
Qed.

(** What a call of [Close] does. *)
Lemma Close_run (st : State) :
  Close storage st =
  match DB (repo st) with
  | None => (Returns None, st)
  | Some db =>
      (Returns (closeResult storage (calls st) db),
       mkState (repo st) (calls st ++ [CallClose db]))
  end.
Proof.
  destruct st as [r cs]. unfold Close. run_steps.
  destruct (DB r) as [db|]; reflexivity.
Qed.

End Lifecycle.

Lemma string_eqb_empty (s : string) : String.eqb s "" = true <-> s = "".
Proof. apply String.eqb_eq. Qed.

(** X1. [Open] on a repository without a DSN fails with the classified
    error of the no-DSN kind, which wraps the primitive no-DSN error and has
    no payload; the driver is not called and the receiver stays as it was. *)
Theorem Open_without_dsn
    (runtimeCaller : CallSite -> option Frame)
    (ErrRepoNoDsn : error) (ErrcdRepoNoDsn : string)
    (storage : Storage) (st : State) :
  DSN (repo st) = "" ->
  exists ce : CommonError,
    Open runtimeCaller ErrRepoNoDsn ErrcdRepoNoDsn storage st =
    (Returns (Some (commonError ce)), st)
    /\ Code ce = ErrcdRepoNoDsn
    /\ Err ce = Some ErrRepoNoDsn
    /\ Data ce = DataNil.
Proof.
  intros Hdsn. rewrite Open_run, Hdsn. cbn [String.eqb].
  destruct (runtimeCaller SiteOpenNoDsn) as [fr|]; cbn;
    eexists (mkCommonError _ _ _ _ _ _); repeat split.
Qed.

Lemma Open_without_dsn_witness :
  exists ce : CommonError,
    Open exampleCaller ErrRepoOther ErrcdRepoOther emptyStorage
      (mkState (NewRepoDB "") []) =
    (Returns (Some (commonError ce)), mkState (NewRepoDB "") [])
    /\ Code ce = ErrcdRepoOther
    /\ Err ce = Some ErrRepoOther
    /\ Data ce = DataNil.
Proof.
  apply (Open_without_dsn exampleCaller ErrRepoOther ErrcdRepoOther emptyStorage
           (mkState (NewRepoDB "") [])).
  reflexivity.
Defined.

(** X2. When the driver refuses to open the connection, [Open] returns a
    classified error of kind ConnectionExceptionError from which [Unwrap]
    gives the driver's error; the handle is not set, and [sql.Open] was
    called once, with the driver name pgx and the DSN. *)
Theorem Open_connection_refused
    (runtimeCaller : CallSite -> option Frame)
    (ErrRepoNoDsn : error) (ErrcdRepoNoDsn : string)
    (storage : Storage) (st : State) (err : error) :
  DSN (repo st) <> "" ->
  openResult storage (calls st) "pgx" (DSN (repo st)) = Some err ->
  exists ce : CommonError,
    Open runtimeCaller ErrRepoNoDsn ErrcdRepoNoDsn storage st =
    (Returns (Some (commonError ce)),
     mkState (repo st) (calls st ++ [CallOpen "pgx" (DSN (repo st))]))
    /\ Code ce = ErrcdRepoConnException
    /\ Unwrap (commonError ce) = Some err
    /\ asCommonError (commonError ce) = Some ce.
Proof.
  intros Hdsn Hopen. rewrite Open_run.
  destruct (String.eqb (DSN (repo st)) "") eqn:Heq.
  - apply string_eqb_empty in Heq. contradiction.
  - rewrite Hopen.
    destruct (runtimeCaller SiteOpenConn) as [fr|]; cbn;
      eexists (mkCommonError _ _ _ _ _ _); repeat split.
Qed.

Lemma Open_connection_refused_witness :
  exists ce : CommonError,
    Open exampleCaller ErrRepoOther ErrcdRepoOther (failingStorage exampleDriverError)
      (mkState (NewRepoDB "postgres://slo") []) =
    (Returns (Some (commonError ce)),
     mkState (NewRepoDB "postgres://slo") [CallOpen "pgx" "postgres://slo"])
    /\ Code ce = ErrcdRepoConnException
    /\ Unwrap (commonError ce) = Some exampleDriverError
    /\ asCommonError (commonError ce) = Some ce.
Proof.
  apply (Open_connection_refused exampleCaller ErrRepoOther ErrcdRepoOther
           (failingStorage exampleDriverError)
           (mkState (NewRepoDB "postgres://slo") []) exampleDriverError).
  - discriminate.
  - reflexivity.
Defined.

(** X3. A repository that was made by [NewRepoDB] and never opened has no
    handle: [Close] returns nil and calls nothing, while [Add], [GetByJobId]
    and [GetByJobIdBusinessDate] panic on the nil handle before any call
    reaches the storage. *)
Theorem never_opened_repository
    (runtimeCaller : CallSite -> option Frame) (PgErrToCommon : error -> string)
    (newJobStatus : JobStatusDto -> JobStatus * option error)
    (storage : Storage) (dsn : string) (cs : list Call)
    (jobStatus : JobStatus) (jobId : JobIdType) (busDt : Date) :
  let st := mkState (NewRepoDB dsn) cs in
  Close storage st = (Returns None, st)
  /\ Add runtimeCaller PgErrToCommon storage jobStatus st = (Panics, st)
  /\ GetByJobId runtimeCaller PgErrToCommon newJobStatus storage jobId st =
     (Panics, st)
  /\ GetByJobIdBusinessDate runtimeCaller PgErrToCommon newJobStatus storage
       jobId busDt st = (Panics, st).
Proof.
  cbv zeta.
  rewrite Close_run, Add_run, GetByJobId_run, GetByJobIdBusinessDate_run.
  repeat split.
Qed.

(** X4. After [Open] succeeded on a new repository, [Add] does not panic: it
    sends the insert statement of [NewRepoDB] with the record's seven values
    on the handle [Open] stored, as the only call after the opening. *)
Theorem Open_then_Add
    (runtimeCaller : CallSite -> option Frame) (PgErrToCommon : error -> string)
    (ErrRepoNoDsn : error) (ErrcdRepoNoDsn : string)
    (storage : Storage) (dsn : string) (cs : list Call) (jobStatus : JobStatus) :
  dsn <> "" ->
  openResult storage cs "pgx" dsn = None ->
  let opened := Open runtimeCaller ErrRepoNoDsn ErrcdRepoNoDsn storage
                  (mkState (NewRepoDB dsn) cs) in
  let added := Add runtimeCaller PgErrToCommon storage jobStatus (snd opened) in
  fst opened = Returns None
  /\ DB (repo (snd opened)) = Some (List.length cs)
  /\ fst added <> Panics
  /\ calls (snd added) =
     (cs ++ [CallOpen "pgx" dsn;
             CallExec (List.length cs) (sqlInsert (NewRepoDB dsn))
               (domainToDb jobStatus)])%list.
Proof.
  intros Hdsn Hopen. cbv zeta.
  rewrite Open_run. cbn [repo calls DSN NewRepoDB].
  destruct (String.eqb dsn "") eqn:Heq.
  { apply string_eqb_empty in Heq. contradiction. }
  rewrite Hopen. cbn [fst snd repo].
  rewrite Add_run. cbn [repo calls DB withDB sqlInsert fst snd NewRepoDB].
  repeat split; [discriminate |].
  rewrite <- app_assoc. reflexivity.
Qed.

Lemma Open_then_Add_witness :
  let opened := Open exampleCaller ErrRepoOther ErrcdRepoOther emptyStorage
                  (mkState (NewRepoDB "postgres://slo") []) in
  let added := Add exampleCaller examplePgErrToCommon emptyStorage exampleRecord
                 (snd opened) in
  fst opened = Returns None
  /\ DB (repo (snd opened)) = Some 0%nat
  /\ fst added <> Panics
  /\ calls (snd added) =
     [CallOpen "pgx" "postgres://slo";
      CallExec 0 (sqlInsert (NewRepoDB "postgres://slo")) (domainToDb exampleRecord)].
Proof.
  apply (Open_then_Add exampleCaller examplePgErrToCommon ErrRepoOther
           ErrcdRepoOther emptyStorage "postgres://slo" [] exampleRecord).
  - discriminate.
  - reflexivity.
Defined.

Lemma closingStorage_respectsClose : respectsClose closingStorage.
Proof.
  intros cs h Hclosed. cbn.
  rewrite (bool_decide_eq_true_2 _ Hclosed). repeat split.
Qed.

(** X5. [Close] on an open handle hands back the answer of [database/sql]
    as it is, without classifying it, and leaves the handle in the receiver:
    it does not set [repo.DB] to nil.  With the library's behaviour on
    closed handles, a second [Close] calls [DB.Close] on the same handle and
    returns nil, and a later [Add] or [GetByJobId] does not panic but calls
    the closed handle and returns a classified error that wraps the
    library's database-is-closed error, with the usual payload. *)
Theorem Close_keeps_handle
    (runtimeCaller : CallSite -> option Frame) (PgErrToCommon : error -> string)
    (newJobStatus : JobStatusDto -> JobStatus * option error)
    (storage : Storage) (st : State) (db : nat)
    (jobStatus : JobStatus) (jobId : JobIdType) :
  DB (repo st) = Some db ->
  respectsClose storage ->
  let closed := Close storage st in
  fst closed = Returns (closeResult storage (calls st) db)
  /\ repo (snd closed) = repo st
  /\ Close storage (snd closed) =
     (Returns None,
      mkState (repo st) (calls st ++ [CallClose db; CallClose db]))
  /\ (exists ce : CommonError,
         Add runtimeCaller PgErrToCommon storage jobStatus (snd closed) =
         (Returns (Some (commonError ce)),
          mkState (repo st)
            (calls st ++ [CallClose db;
                          CallExec db (sqlInsert (repo st)) (domainToDb jobStatus)]))
         /\ Code ce = PgErrToCommon errDBClosed
         /\ Err ce = Some errDBClosed
         /\ Data ce = DataJobStatus jobStatus)
  /\ (exists ce : CommonError,
         GetByJobId runtimeCaller PgErrToCommon newJobStatus storage jobId
           (snd closed) =
         (Returns ([], Some (commonError ce)),
          mkState (repo st)
            (calls st ++ [CallClose db;
                          CallQuery db (sqlSelect (repo st) ++ sqlWhereJobId (repo st))
                            [DbText jobId]]))
         /\ Code ce = PgErrToCommon errDBClosed
         /\ Err ce = Some errDBClosed
         /\ carriesJobId jobId (commonError ce)).
Proof.
  intros Hdb Hlib. cbv zeta.
  rewrite (Close_run storage st), Hdb. cbn [fst snd].
  assert (Hclosed : CallClose db ∈ (calls st ++ [CallClose db])%list).
  { apply elem_of_app. right. apply list_elem_of_singleton. reflexivity. }
  destruct (Hlib _ _ Hclosed) as (Hclose & Hexec & Hquery).
  split; [reflexivity |]. split; [reflexivity |].
  split.
  { rewrite Close_run. cbn [repo calls]. rewrite Hdb, Hclose, <- app_assoc.
    reflexivity. }
  split.
  - rewrite Add_run. cbn [repo calls]. rewrite Hdb, Hexec, <- app_assoc.
    destruct (runtimeCaller SiteAdd) as [fr|]; cbn [NewCommonError];
      eexists (mkCommonError _ _ _ _ _ _); repeat split.
  - rewrite GetByJobId_run. cbn [repo calls]. rewrite Hdb. cbv zeta.
    rewrite Hquery, <- app_assoc.
    pose proof (carriesJobId_query_error (runtimeCaller SiteGetByJobIdQuery)
                  errDBClosed (PgErrToCommon errDBClosed) jobId) as Hcarries.
    destruct (runtimeCaller SiteGetByJobIdQuery) as [fr|]; cbn [NewCommonError] in *;
      eexists (mkCommonError _ _ _ _ _ _);
      (split; [reflexivity |]); (split; [reflexivity |]);
      (split; [reflexivity |]); exact Hcarries.
Qed.

Lemma Close_keeps_handle_witness :
  let closed := Close closingStorage exampleState in
  fst closed = Returns None
  /\ repo (snd closed) = repo exampleState
  /\ Close closingStorage (snd closed) =
     (Returns None,
      mkState (repo exampleState)
        (calls exampleState ++ [CallClose 0; CallClose 0]))
  /\ (exists ce : CommonError,
         Add exampleCaller examplePgErrToCommon closingStorage exampleRecord
           (snd closed) =
         (Returns (Some (commonError ce)),
          mkState (repo exampleState)
            (calls exampleState ++
             [CallClose 0;
              CallExec 0 (sqlInsert (repo exampleState)) (domainToDb exampleRecord)]))
         /\ Code ce = examplePgErrToCommon errDBClosed
         /\ Err ce = Some errDBClosed
         /\ Data ce = DataJobStatus exampleRecord)
  /\ (exists ce : CommonError,
         GetByJobId exampleCaller examplePgErrToCommon exampleNewJobStatus
           closingStorage "J1" (snd closed) =
         (Returns ([], Some (commonError ce)),
          mkState (repo exampleState)
            (calls exampleState ++
             [CallClose 0;
              CallQuery 0
                (sqlSelect (repo exampleState) ++ sqlWhereJobId (repo exampleState))
                [DbText "J1"]]))
         /\ Code ce = examplePgErrToCommon errDBClosed
         /\ Err ce = Some errDBClosed
         /\ carriesJobId "J1" (commonError ce)).
Proof.
  apply (Close_keeps_handle exampleCaller examplePgErrToCommon exampleNewJobStatus
           closingStorage exampleState 0%nat exampleRecord "J1").
  - reflexivity.
  - exact closingStorage_respectsClose.
Defined.

(** ** Adding a record *)

(** X6. On an open handle [Add] issues exactly one call, the insert with
    the seven values of [domainToDb]; it returns nil exactly when the
    storage accepts the insert, and otherwise a classified error whose code
    is the classification of the driver's error, whose payload is the
    record that was to be added, and which unwraps to the driver's error. *)
Theorem Add_outcome
    (runtimeCaller : CallSite -> option Frame) (PgErrToCommon : error -> string)
    (storage : Storage) (st : State) (db : nat) (jobStatus : JobStatus) :
  DB (repo st) = Some db ->
  let added := Add runtimeCaller PgErrToCommon storage jobStatus st in
  let answer := execResult storage (calls st) db (sqlInsert (repo st))
                  (domainToDb jobStatus) in
  calls (snd added) =
  (calls st ++ [CallExec db (sqlInsert (repo st)) (domainToDb jobStatus)])%list
  /\ (fst added = Returns None <-> answer = None)
  /\ (forall derr : error,
         answer = Some derr ->
         exists ce : CommonError,
           fst added = Returns (Some (commonError ce))
           /\ Code ce = PgErrToCommon derr
           /\ Data ce = DataJobStatus jobStatus
           /\ Unwrap (commonError ce) = Some derr).
Proof.
  intros Hdb. cbv zeta. rewrite Add_run, Hdb. cbn [fst snd calls].
  split; [reflexivity |]. split.
  - destruct (execResult storage (calls st) db _ _); split; congruence.
  - intros derr ->.
    destruct (runtimeCaller SiteAdd) as [fr|]; cbn;
      eexists (mkCommonError _ _ _ _ _ _); repeat split.
Qed.

Lemma Add_outcome_witness :
  let added := Add exampleCaller examplePgErrToCommon
                 (failingStorage exampleDriverError) exampleRecord exampleState in
  calls (snd added) =
  (calls exampleState ++
   [CallExec 0 (sqlInsert (repo exampleState)) (domainToDb exampleRecord)])%list
  /\ exists ce : CommonError,
       fst added = Returns (Some (commonError ce))
       /\ Code ce = ErrcdRepoOther
       /\ Data ce = DataJobStatus exampleRecord
       /\ Unwrap (commonError ce) = Some exampleDriverError.
Proof.
  destruct (Add_outcome exampleCaller examplePgErrToCommon
              (failingStorage exampleDriverError) exampleState 0%nat exampleRecord
              eq_refl) as (Hcalls & _ & Herr).
  split; [exact Hcalls |].
  exact (Herr exampleDriverError eq_refl).
Defined.

(** ** Reading result sets *)

Lemma rowsToDomainLoop_success_all_convert
    (runtimeCaller : CallSite -> option Frame)
    (newJobStatus : JobStatusDto -> JobStatus * option error)
    (rows : list (list dbValue)) (result : list JobStatus) :
  snd (rowsToDomainLoop runtimeCaller newJobStatus rows result) = None ->
  allConvert runtimeCaller newJobStatus rows [].
Proof.
  revert result.
  induction rows as [|row rest IH]; intros result; cbn; [trivial |].
  rewrite app_nil_r.
  destruct (dbToDomain runtimeCaller newJobStatus (mkRows (Some row) rest))
    as [js [err|]]; cbn.
  - discriminate.
  - intros Hrest. split; [reflexivity | exact (IH _ Hrest)].
Qed.

Lemma converted_length
    (runtimeCaller : CallSite -> option Frame)
    (newJobStatus : JobStatusDto -> JobStatus * option error)
    (rows post : list (list dbValue)) :
  List.length (converted runtimeCaller newJobStatus rows post) = List.length rows.
Proof.
  induction rows as [|row rest IH]; cbn; [reflexivity | rewrite IH; reflexivity].
Qed.

Lemma delivered_length (c : Cursor) :
  List.length (delivered c) =
  match breaksAfter c with
  | Some (n, _) => Nat.min n (List.length (resultSet c))
  | None => List.length (resultSet c)
  end.
Proof.
  unfold delivered. destruct (breaksAfter c) as [[n err]|]; [|reflexivity].
  apply length_take.
Qed.

(** X7. [rowsToDomain] returns no error exactly when every row the cursor
    delivers converts, and it then returns one record per delivered row, in
    the order of delivery.  The rows are those delivered before [Next]
    returns false: [rowsToDomain] never reads [rows.Err()], so for a cursor
    that breaks after [n] rows it returns the records of the rows delivered
    until then, at most [n], with a nil error, although [rows.Err()] holds
    the error of the iteration. *)
Theorem rowsToDomain_succeeds_iff
    (runtimeCaller : CallSite -> option Frame)
    (newJobStatus : JobStatusDto -> JobStatus * option error) (c : Cursor) :
  (snd (rowsToDomain runtimeCaller newJobStatus (cursorRows c)) = None <->
   allConvert runtimeCaller newJobStatus (delivered c) [])
  /\ (allConvert runtimeCaller newJobStatus (delivered c) [] ->
      rowsToDomain runtimeCaller newJobStatus (cursorRows c) =
      (converted runtimeCaller newJobStatus (delivered c) [], None)
      /\ List.length (fst (rowsToDomain runtimeCaller newJobStatus (cursorRows c))) =
         List.length (delivered c)
      /\ forall (n : nat) (err : error),
           breaksAfter c = Some (n, err) ->
           rowsErr c = Some err
           /\ snd (rowsToDomain runtimeCaller newJobStatus (cursorRows c)) = None
           /\ List.length (fst (rowsToDomain runtimeCaller newJobStatus (cursorRows c))) =
              Nat.min n (List.length (resultSet c))).
Proof.
  assert (Hok : allConvert runtimeCaller newJobStatus (delivered c) [] ->
                rowsToDomain runtimeCaller newJobStatus (cursorRows c) =
                (converted runtimeCaller newJobStatus (delivered c) [], None)).
  { intros Hall. unfold rowsToDomain, cursorRows. cbn [pending].
    rewrite (rowsToDomainLoop_all_convert _ _ _ _ Hall). reflexivity. }
  split; [split |].
  - apply rowsToDomainLoop_success_all_convert.
  - intros Hall. rewrite (Hok Hall). reflexivity.
  - intros Hall. rewrite (Hok Hall). cbn [fst snd].
    split; [reflexivity |].
    split; [apply converted_length |].
    intros n err Hbreak.
    split; [unfold rowsErr; rewrite Hbreak; reflexivity |].
    split; [reflexivity |].
    rewrite converted_length, delivered_length, Hbreak. reflexivity.
Qed.

Lemma exampleBrokenCursor_all_convert :
  allConvert exampleCaller exampleNewJobStatus (delivered exampleBrokenCursor) [].
Proof. vm_compute. auto. Qed.

Lemma rowsToDomain_succeeds_iff_witness :
  rowsToDomain exampleCaller exampleNewJobStatus (cursorRows exampleBrokenCursor) =
  ([exampleRecord], None)
  /\ List.length (fst (rowsToDomain exampleCaller exampleNewJobStatus
                         (cursorRows exampleBrokenCursor))) = 1%nat
  /\ forall (n : nat) (err : error),
       breaksAfter exampleBrokenCursor = Some (n, err) ->
       rowsErr exampleBrokenCursor = Some err
       /\ snd (rowsToDomain exampleCaller exampleNewJobStatus
                 (cursorRows exampleBrokenCursor)) = None
       /\ List.length (fst (rowsToDomain exampleCaller exampleNewJobStatus
                              (cursorRows exampleBrokenCursor))) =
          Nat.min n (List.length (resultSet exampleBrokenCursor)).
Proof.
  apply (proj2 (rowsToDomain_succeeds_iff exampleCaller exampleNewJobStatus
                  exampleBrokenCursor)).
  exact exampleBrokenCursor_all_convert.
Defined.

(** X8. When the query succeeds and every row its cursor delivers converts,
    [GetByJobId] and [GetByJobIdBusinessDate] return the records of the
    delivered rows, one per row and in the order of delivery, and no error.
    This holds for a cursor that breaks during the iteration too: the reads
    then return the records of the rows delivered before the break with a
    nil error, fewer than the result set has rows, and the error of the
    iteration is not reported. *)
Theorem read_returns_rows_in_order
    (runtimeCaller : CallSite -> option Frame) (PgErrToCommon : error -> string)
    (newJobStatus : JobStatusDto -> JobStatus * option error)
    (storage : Storage) (st : State) (db : nat)
    (jobId : JobIdType) (busDt : Date) (c : Cursor) :
  DB (repo st) = Some db ->
  allConvert runtimeCaller newJobStatus (delivered c) [] ->
  (queryResult storage (calls st) db
     (sqlSelect (repo st) ++ sqlWhereJobId (repo st)) [DbText jobId] =
   inl (delivered c) ->
   fst (GetByJobId runtimeCaller PgErrToCommon newJobStatus storage jobId st) =
   Returns (converted runtimeCaller newJobStatus (delivered c) [], None))
  /\ (queryResult storage (calls st) db
        (sqlSelect (repo st) ++ sqlWhereJobIdBusDt (repo st))
        [DbText jobId; DbTimestamp (dateTime busDt)] = inl (delivered c) ->
      fst (GetByJobIdBusinessDate runtimeCaller PgErrToCommon newJobStatus storage
             jobId busDt st) =
      Returns (converted runtimeCaller newJobStatus (delivered c) [], None))
  /\ List.length (converted runtimeCaller newJobStatus (delivered c) []) =
     List.length (delivered c)
  /\ (forall (n : nat) (err : error),
         breaksAfter c = Some (n, err) ->
         (n < List.length (resultSet c))%nat ->
         rowsErr c = Some err
         /\ (List.length (converted runtimeCaller newJobStatus (delivered c) []) <
             List.length (resultSet c))%nat).
Proof.
  intros Hdb Hall.
  assert (Hrows : rowsToDomain runtimeCaller newJobStatus (mkRows None (delivered c)) =
                  (converted runtimeCaller newJobStatus (delivered c) [], None)).
  { unfold rowsToDomain. cbn [pending].
    rewrite (rowsToDomainLoop_all_convert _ _ _ _ Hall). reflexivity. }
  split; [|split; [|split]].
  - intros Hq. rewrite GetByJobId_run, Hdb. cbv zeta. rewrite Hq, Hrows. reflexivity.
  - intros Hq. rewrite GetByJobIdBusinessDate_run, Hdb. cbv zeta.
    rewrite Hq, Hrows. reflexivity.
  - apply converted_length.
  - intros n err Hbreak Hlt.
    split; [unfold rowsErr; rewrite Hbreak; reflexivity |].
    rewrite converted_length, delivered_length, Hbreak. lia.
Qed.

Lemma read_returns_rows_in_order_witness :
  fst (GetByJobId exampleCaller examplePgErrToCommon exampleNewJobStatus
         brokenCursorStorage "J1" exampleState) =
  Returns ([exampleRecord], None)
  /\ fst (GetByJobIdBusinessDate exampleCaller examplePgErrToCommon
            exampleNewJobStatus brokenCursorStorage "J1" exampleDate exampleState) =
     Returns ([exampleRecord], None)
  /\ rowsErr exampleBrokenCursor = Some exampleDriverError
  /\ (List.length (converted exampleCaller exampleNewJobStatus
                     (delivered exampleBrokenCursor) []) <
      List.length (resultSet exampleBrokenCursor))%nat.
Proof.
  destruct (read_returns_rows_in_order exampleCaller examplePgErrToCommon
              exampleNewJobStatus brokenCursorStorage exampleState 0%nat "J1"
              exampleDate exampleBrokenCursor
              eq_refl exampleBrokenCursor_all_convert) as (H1 & H2 & _ & H3).
  split; [exact (H1 eq_refl) |]. split; [exact (H2 eq_refl) |].
  apply (H3 1%nat exampleDriverError eq_refl). vm_compute. lia.
Defined.

(** X9. The cursor of a read is closed whenever the query delivered one,
    whether its rows convert or not, and nothing is closed when the query
    failed: a read issues the query and then at most the closing of its
    cursor, and no other call. *)
Theorem read_closes_cursor
    (runtimeCaller : CallSite -> option Frame) (PgErrToCommon : error -> string)
    (newJobStatus : JobStatusDto -> JobStatus * option error)
    (storage : Storage) (st : State) (db : nat)
    (jobId : JobIdType) (busDt : Date) :
  DB (repo st) = Some db ->
  let byId := CallQuery db (sqlSelect (repo st) ++ sqlWhereJobId (repo st))
                [DbText jobId] in
  let byIdDate := CallQuery db (sqlSelect (repo st) ++ sqlWhereJobIdBusDt (repo st))
                    [DbText jobId; DbTimestamp (dateTime busDt)] in
  calls (snd (GetByJobId runtimeCaller PgErrToCommon newJobStatus storage jobId st)) =
  (calls st ++
   match queryResult storage (calls st) db
           (sqlSelect (repo st) ++ sqlWhereJobId (repo st)) [DbText jobId] with
   | inl _ => [byId; CallRowsClose]
   | inr _ => [byId]
   end)%list
  /\ calls (snd (GetByJobIdBusinessDate runtimeCaller PgErrToCommon newJobStatus
                   storage jobId busDt st)) =
     (calls st ++
      match queryResult storage (calls st) db
              (sqlSelect (repo st) ++ sqlWhereJobIdBusDt (repo st))
              [DbText jobId; DbTimestamp (dateTime busDt)] with
      | inl _ => [byIdDate; CallRowsClose]
      | inr _ => [byIdDate]
      end)%list.
Proof.
  intros Hdb. cbv zeta.
  rewrite GetByJobId_run, GetByJobIdBusinessDate_run, Hdb. cbv zeta.
  split.
  - destruct (queryResult storage (calls st) db _ [DbText jobId]) as [rs|derr];
      [|reflexivity].
    destruct (rowsToDomain _ _ _) as [data [e|]]; cbn [snd calls];
      rewrite <- app_assoc; reflexivity.
  - destruct (queryResult storage (calls st) db _ [DbText jobId; _]) as [rs|derr];
      [|reflexivity].
    destruct (rowsToDomain _ _ _) as [data [e|]]; cbn [snd calls];
      rewrite <- app_assoc; reflexivity.
Qed.

Lemma read_closes_cursor_witness :
  calls (snd (GetByJobId exampleCaller examplePgErrToCommon exampleNewJobStatus
                nullRowStorage "J1" exampleState)) =
  (calls exampleState ++
   [CallQuery 0 (sqlSelect (repo exampleState) ++ sqlWhereJobId (repo exampleState))
      [DbText "J1"];
    CallRowsClose])%list.
Proof.
  exact (proj1 (read_closes_cursor exampleCaller examplePgErrToCommon
                  exampleNewJobStatus nullRowStorage exampleState 0%nat "J1"
                  exampleDate eq_refl)).
Defined.

(** X10. When the query of [GetByJobIdBusinessDate] fails, the error is a
    classified error whose code is the classification of the driver's
    error, which unwraps to the driver's error, and whose payload is a map
    holding the job id under jobId and the business date under busDt, and
    nothing else. *)
Theorem GetByJobIdBusinessDate_query_failure
    (runtimeCaller : CallSite -> option Frame) (PgErrToCommon : error -> string)
    (newJobStatus : JobStatusDto -> JobStatus * option error)
    (storage : Storage) (st : State) (db : nat)
    (jobId : JobIdType) (busDt : Date) (derr : error) :
  DB (repo st) = Some db ->
  queryResult storage (calls st) db
    (sqlSelect (repo st) ++ sqlWhereJobIdBusDt (repo st))
    [DbText jobId; DbTimestamp (dateTime busDt)] = inr derr ->
  exists (ce : CommonError) (m : gmap string anyValue),
    fst (GetByJobIdBusinessDate runtimeCaller PgErrToCommon newJobStatus storage
           jobId busDt st) = Returns ([], Some (commonError ce))
    /\ Code ce = PgErrToCommon derr
    /\ Err ce = Some derr
    /\ Data ce = DataMap m
    /\ m !! "jobId" = Some (AnyJobId jobId)
    /\ m !! "busDt" = Some (AnyDate busDt)
    /\ dom m = ({[ "jobId"; "busDt" ]} : gset string)
    /\ carriesJobId jobId (commonError ce).
Proof.
  intros Hdb Hq. rewrite GetByJobIdBusinessDate_run, Hdb. cbv zeta. rewrite Hq.
  assert (Hbus : (<["busDt" := AnyDate busDt]> ({["jobId" := AnyJobId jobId]}
                     : gmap string anyValue)) !! "busDt" = Some (AnyDate busDt))
    by apply lookup_insert_eq.
  assert (Hjob : (<["busDt" := AnyDate busDt]> ({["jobId" := AnyJobId jobId]}
                     : gmap string anyValue)) !! "jobId" = Some (AnyJobId jobId)).
  { rewrite lookup_insert_ne by discriminate. apply lookup_singleton_eq. }
  assert (Hdom : dom (<["busDt" := AnyDate busDt]> ({["jobId" := AnyJobId jobId]}
                         : gmap string anyValue)) =
                 ({[ "jobId"; "busDt" ]} : gset string)).
  { rewrite dom_insert_L, dom_singleton_L. set_solver. }
  destruct (runtimeCaller SiteGetByJobIdBusDtQuery) as [fr|]; cbn [NewCommonError fst];
    eexists (mkCommonError _ _ _ _ _ _), _;
    (split; [reflexivity |]); cbn [Code Err Data];
    (repeat (split; [first [reflexivity | exact Hjob | exact Hbus | exact Hdom] |]));
    unfold carriesJobId; cbn [commonError asCommonError FileName FuncName LineNo Data Code Err];
    eexists (mkCommonError _ _ _ _ _ _), _;
    (split; [reflexivity |]); (split; [reflexivity |]); exact Hjob.
Qed.

Lemma GetByJobIdBusinessDate_query_failure_witness :
  exists (ce : CommonError) (m : gmap string anyValue),
    fst (GetByJobIdBusinessDate exampleCaller examplePgErrToCommon
           exampleNewJobStatus (failingStorage exampleDriverError)
           "J1" exampleDate exampleState) = Returns ([], Some (commonError ce))
    /\ Code ce = examplePgErrToCommon exampleDriverError
    /\ Err ce = Some exampleDriverError
    /\ Data ce = DataMap m
    /\ m !! "jobId" = Some (AnyJobId "J1")
    /\ m !! "busDt" = Some (AnyDate exampleDate)
    /\ dom m = ({[ "jobId"; "busDt" ]} : gset string)
    /\ carriesJobId "J1" (commonError ce).
Proof.
  apply (GetByJobIdBusinessDate_query_failure exampleCaller examplePgErrToCommon
           exampleNewJobStatus (failingStorage exampleDriverError) exampleState
           0%nat "J1" exampleDate exampleDriverError); reflexivity.
Defined.

(** ** Statements and arguments *)


(** ** Rows that cannot be scanned *)

Lemma bindE_inl {A B : Type} (m : A + error) (k : A -> B + error) (b : B) :
  bindE m k = inl b -> exists a, m = inl a /\ k a = inl b.
Proof. destruct m as [a|e]; cbn; [eauto | discriminate]. Qed.

Lemma scanString_inl (index : nat) (v : dbValue) (s : string) :
  scanString index v = inl s -> v <> DbNull.
Proof. destruct v; cbn; congruence. Qed.

Lemma scanTime_inl (index : nat) (v : dbValue) (t : Time) :
  scanTime index v = inl t -> v <> DbNull.
Proof. destruct v; cbn; congruence. Qed.

(** A row that scans has seven columns, none of them NULL. *)
Lemma Scan_inl_shape (row : list dbValue) (rest : list (list dbValue)) (v : Scanned) :
  Scan (mkRows (Some row) rest) = inl v ->
  List.length row = 7%nat /\ DbNull ∉ row.
Proof.
  unfold Scan; cbn [current].
  destruct row as [|c0 [|c1 [|c2 [|c3 [|c4 [|c5 [|c6 [|c7 row]]]]]]]];
    try discriminate.
  intros H.
  apply bindE_inl in H as (a & H0 & H).
  apply bindE_inl in H as (j & H1 & H).
  apply bindE_inl in H as (s & H2 & H).
  apply bindE_inl in H as (t & H3 & H).
  apply bindE_inl in H as (b & H4 & H).
  apply bindE_inl in H as (r & H5 & H).
  apply bindE_inl in H as (h & H6 & _).
  apply scanString_inl in H0, H1, H2, H5, H6.
  apply scanTime_inl in H3, H4.
  split; [reflexivity |].
  rewrite !not_elem_of_cons. repeat split; try congruence.
  apply not_elem_of_nil.
Qed.

(** X12. A row with a number of columns other than seven, or with NULL in
    any column (the destinations are plain strings and times), does not
    scan: [dbToDomain] returns the zero record and a classified error of
    kind ScanError that carries the cursor, whatever the domain constructor
    would have done, which is not asked. *)
Theorem dbToDomain_null_or_arity
    (runtimeCaller : CallSite -> option Frame)
    (newJobStatus : JobStatusDto -> JobStatus * option error)
    (row : list dbValue) (rest : list (list dbValue)) :
  List.length row <> 7%nat \/ DbNull ∈ row ->
  exists serr : error,
    Scan (mkRows (Some row) rest) = inr serr
    /\ dbToDomain runtimeCaller newJobStatus (mkRows (Some row) rest) =
       (zeroJobStatus,
        Some (NewCommonError (runtimeCaller SiteDbToDomainScan) (Some serr)
                ErrcdRepoScan (DataRows (mkRows (Some row) rest)))).
Proof.
  intros Hbad. unfold dbToDomain.
  destruct (Scan (mkRows (Some row) rest)) as [v|serr] eqn:Hscan.
  - apply Scan_inl_shape in Hscan as [Hlen Hnull].
    destruct Hbad; contradiction.
  - exists serr. split; reflexivity.
Qed.

Lemma dbToDomain_null_or_arity_witness :
  exists serr : error,
    Scan (mkRows (Some exampleNullRow) []) = inr serr
    /\ dbToDomain exampleCaller exampleNewJobStatus (mkRows (Some exampleNullRow) []) =
       (zeroJobStatus,
        Some (NewCommonError (exampleCaller SiteDbToDomainScan) (Some serr)
                ErrcdRepoScan (DataRows (mkRows (Some exampleNullRow) [])))).
Proof.
  apply (dbToDomain_null_or_arity exampleCaller exampleNewJobStatus exampleNullRow []).
  right. unfold exampleNullRow. rewrite !elem_of_cons. tauto.
Defined.

(** X13. [domainToDb] loses nothing: two records with the same row are the
    same record. *)
Theorem domainToDb_injective (r1 r2 : JobStatus) :
  domainToDb r1 = domainToDb r2 -> r1 = r2.
Proof.
  destruct r1 as [a1 j1 s1 t1 [d1] u1 h1], r2 as [a2 j2 s2 t2 [d2] u2 h2].
  unfold domainToDb, AsTime; cbn.
  intros [= -> -> -> -> -> -> ->]. reflexivity.
Qed.

Lemma domainToDb_injective_witness : exampleRecord = exampleRecord.
Proof. apply (domainToDb_injective exampleRecord exampleRecord). reflexivity. Defined.

(** X14. The row of [domainToDb] always has seven values and never a NULL:
    a record without run id or host id is written with empty texts, and
    such a row, read back, passes the scan. *)
Theorem domainToDb_row_scans (r : JobStatus) (rest : list (list dbValue)) :
  List.length (domainToDb r) = 7%nat
  /\ (DbNull ∉ domainToDb r)
  /\ exists v : Scanned,
       Scan (mkRows (Some (domainToDb r)) rest) = inl v
       /\ runId v = RunId r /\ hstId v = HostId r.
Proof.
  split; [reflexivity |]. split.
  - unfold domainToDb. rewrite !not_elem_of_cons.
    repeat split; try discriminate. apply not_elem_of_nil.
  - eexists. split; [reflexivity |]. split; reflexivity.
Qed.

(** ** Errors handed up through the layers *)

Lemma asCommonError_wrapThrough (callers : list (option Frame)) (e : error) :
  asCommonError (wrapThrough callers e) = asCommonError e.
Proof. induction callers as [|c callers IH]; [reflexivity | exact IH]. Qed.

Lemma Error_wrapThrough (callers : list (option Frame)) (e : error) :
  Error (wrapThrough callers e) = provenanceTrail callers ++ Error e.
Proof.
  induction callers as [|c callers IH]; [reflexivity |].
  change (Error (WrapError c (wrapThrough callers e)) =
          (provenance c ++ " <- " ++ provenanceTrail callers) ++ Error e).
  change (Error (WrapError c (wrapThrough callers e)))
    with (provenance c ++ " <- " ++ Error (wrapThrough callers e)).
  rewrite IH, !string_app_assoc. reflexivity.
Qed.

Lemma isError_wrapThrough (target : string) (callers : list (option Frame)) (e : error) :
  isError target (wrapThrough callers e) = isError target e.
Proof. induction callers as [|c callers IH]; [reflexivity | exact IH]. Qed.

(** X15. When a row of the result set fails to convert, the error
    [GetByJobId] returns is the error of [dbToDomain] for the first such
    row, wrapped once by [rowsToDomain] and once by [GetByJobId]: its text is
    the provenance of [GetByJobId], then that of [rowsToDomain], then the
    text of the original error, and [errors.As] finds the classified error
    of the original. *)
Theorem GetByJobId_conversion_failure_trace
    (runtimeCaller : CallSite -> option Frame) (PgErrToCommon : error -> string)
    (newJobStatus : JobStatusDto -> JobStatus * option error)
    (storage : Storage) (st : State) (db : nat) (jobId : JobIdType)
    (pre : list (list dbValue)) (bad : list dbValue) (post : list (list dbValue))
    (err : error) :
  DB (repo st) = Some db ->
  queryResult storage (calls st) db
    (sqlSelect (repo st) ++ sqlWhereJobId (repo st)) [DbText jobId] =
  inl (pre ++ bad :: post)%list ->
  allConvert runtimeCaller newJobStatus pre (bad :: post) ->
  snd (dbToDomain runtimeCaller newJobStatus (mkRows (Some bad) post)) = Some err ->
  let e := wrapThrough [runtimeCaller SiteGetByJobIdRows;
                        runtimeCaller SiteRowsToDomain] err in
  fst (GetByJobId runtimeCaller PgErrToCommon newJobStatus storage jobId st) =
  Returns ([], Some e)
  /\ Error e =
     provenance (runtimeCaller SiteGetByJobIdRows) ++ " <- " ++
     provenance (runtimeCaller SiteRowsToDomain) ++ " <- " ++ Error err
  /\ asCommonError e = asCommonError err.
Proof.
  intros Hdb Hq Hpre Hbad. cbv zeta.
  split; [|split].
  - rewrite GetByJobId_run, Hdb. cbv zeta. rewrite Hq.
    unfold rowsToDomain. cbn [pending].
    rewrite (rowsToDomainLoop_first_failure _ _ pre bad post err [] Hpre Hbad).
    reflexivity.
  - rewrite Error_wrapThrough. cbn [provenanceTrail foldr].
    rewrite !string_app_assoc. reflexivity.
  - apply asCommonError_wrapThrough.
Qed.

Lemma GetByJobId_conversion_failure_trace_witness :
  let e := wrapThrough [exampleCaller SiteGetByJobIdRows;
                        exampleCaller SiteRowsToDomain]
             (NewCommonError (exampleCaller SiteDbToDomainScan)
                (Some exampleScanError) ErrcdRepoScan
                (DataRows (mkRows (Some exampleNullRow) []))) in
  fst (GetByJobId exampleCaller examplePgErrToCommon exampleNewJobStatus
         nullRowStorage "J1" exampleState) = Returns ([], Some e)
  /\ Error e =
     provenance (exampleCaller SiteGetByJobIdRows) ++ " <- " ++
     provenance (exampleCaller SiteRowsToDomain) ++ " <- " ++
     Error (NewCommonError (exampleCaller SiteDbToDomainScan)
              (Some exampleScanError) ErrcdRepoScan
              (DataRows (mkRows (Some exampleNullRow) [])))
  /\ asCommonError e =
     asCommonError (NewCommonError (exampleCaller SiteDbToDomainScan)
                      (Some exampleScanError) ErrcdRepoScan
                      (DataRows (mkRows (Some exampleNullRow) []))).
Proof.
  apply (GetByJobId_conversion_failure_trace exampleCaller examplePgErrToCommon
           exampleNewJobStatus nullRowStorage exampleState 0%nat "J1"
           [domainToDb exampleRecord] exampleNullRow []).
  - reflexivity.
  - reflexivity.
  - vm_compute. auto.
  - reflexivity.
Defined.

(** X16. The primitive error a classified error was made from stays
    detectable by [errors.Is] through any number of [WrapError] layers, and
    a primitive error with another text is not found on a chain that does
    not hold it: wrapping neither hides nor adds primitive errors. *)
Theorem errors_Is_through_layers (callers : list (option Frame))
    (caller : option Frame) (msg other code : string) (data : payload) :
  let e := wrapThrough callers
             (NewCommonError caller (Some (ErrorString msg)) code data) in
  isError msg e = true
  /\ (other <> msg -> isError other e = false).
Proof.
  cbv zeta. rewrite !isError_wrapThrough.
  destruct caller as [fr|]; cbn [NewCommonError isError]; split.
  - apply String.eqb_refl.
  - intros Hne. apply String.eqb_neq. congruence.
  - apply String.eqb_refl.
  - intros Hne. apply String.eqb_neq. congruence.
Qed.

Lemma errors_Is_through_layers_witness :
  isError "scan error"
    (wrapThrough [None; exampleCaller SiteRowsToDomain]
       (NewCommonError None (Some ErrRepoScan) ErrcdRepoScan DataNil)) = true
  /\ isError "props error"
       (wrapThrough [None; exampleCaller SiteRowsToDomain]
          (NewCommonError None (Some ErrRepoScan) ErrcdRepoScan DataNil)) = false.
Proof.
  destruct (errors_Is_through_layers [None; exampleCaller SiteRowsToDomain] None
              "scan error" "props error" ErrcdRepoScan DataNil) as [H1 H2].
  split; [exact H1 | apply H2; discriminate].
Defined.

(** ** Logging an error *)

Lemma string_app_cons (c : ascii) (s1 s2 : string) :
  (String c s1 ++ s2 = String c (s1 ++ s2))%string.
Proof. reflexivity. Qed.

Lemma allEmptyJsonChars_app (s1 s2 : string) :
  allEmptyJsonChars (s1 ++ s2) = allEmptyJsonChars s1 && allEmptyJsonChars s2.
Proof.
  induction s1 as [|c s1 IH]; [reflexivity |].
  rewrite string_app_cons. cbn [allEmptyJsonChars].
  rewrite IH, andb_assoc. reflexivity.
Qed.

Lemma allEmptyJsonChars_emptyObjects (n : nat) :
  allEmptyJsonChars (emptyObjects n) = true.
Proof.
  induction n as [|n IH]; [reflexivity |].
  destruct n as [|n]; [reflexivity |].
  change (emptyObjects (S (S n))) with ("{}," ++ emptyObjects (S n)).
  rewrite allEmptyJsonChars_app, IH. reflexivity.
Qed.

Lemma isEmptyJson_outside (s1 s2 : string) (c : ascii) :
  emptyJsonChar c = false -> isEmptyJson (s1 ++ String c s2) = false.
Proof.
  intros Hc.
  assert (Hall : allEmptyJsonChars (s1 ++ String c s2) = false).
  { rewrite allEmptyJsonChars_app. cbn [allEmptyJsonChars]. rewrite Hc.
    rewrite andb_false_l. apply andb_false_r. }
  destruct s1 as [|c1 s1].
  - change ("" ++ String c s2) with (String c s2) in *. exact Hall.
  - rewrite string_app_cons in *. exact Hall.
Qed.

(** X17. [isEmptyJson] recognises the JSON text of an array of any number of
    empty objects (what an array of errors marshals to), rejects the empty
    text, and rejects every text that has a character other than brackets,
    braces and commas, so no text with a letter, a digit or a quote passes
    for empty. *)
Theorem isEmptyJson_recognises (n : nat) (s1 s2 : string) (c : ascii) :
  isEmptyJson (jsonEmptyObjects n) = true
  /\ isEmptyJson "" = false
  /\ (emptyJsonChar c = false -> isEmptyJson (s1 ++ String c s2) = false).
Proof.
  split; [|split].
  - unfold jsonEmptyObjects.
    change ("[" ++ emptyObjects n ++ "]") with (String "[" (emptyObjects n ++ "]")).
    cbn [isEmptyJson allEmptyJsonChars].
    rewrite allEmptyJsonChars_app, allEmptyJsonChars_emptyObjects. reflexivity.
  - reflexivity.
  - apply isEmptyJson_outside.
Qed.

Lemma isEmptyJson_recognises_witness :
  isEmptyJson (jsonEmptyObjects 3) = true
  /\ isEmptyJson "" = false
  /\ isEmptyJson "null" = false.
Proof.
  destruct (isEmptyJson_recognises 3 "" "ull" "n"%char) as (H1 & H2 & H3).
  split; [exact H1 |]. split; [exact H2 |].
  apply H3. reflexivity.
Defined.

Lemma substring_all_but_last (body : string) (c : ascii) :
  String.substring 0 (String.length body) (body ++ String c "") = body.
Proof.
  induction body as [|b body IH]; [reflexivity |].
  rewrite string_app_cons. cbn [String.length String.substring].
  rewrite IH. reflexivity.
Qed.

Lemma length_app_one (body : string) (c : ascii) :
  String.length (body ++ String c "") = S (String.length body).
Proof.
  induction body as [|b body IH]; [reflexivity |].
  rewrite string_app_cons. cbn [String.length]. rewrite IH. reflexivity.
Qed.

Section LoggingProperties.

Variable jsonMarshal : payload -> string.
Variable sprintV : payload -> string.

(** X18. A payload whose JSON text has any character other than brackets,
    braces and commas is logged with that JSON text, unchanged: [LogError]
    does not panic and hands the logger one record of level error with the
    message, the call stack, the provenance of the error and the JSON
    text. *)
Theorem LogError_logs_json
    (msg callStack : string) (ce : CommonError) (log : list LogRecord)
    (s1 s2 : string) (c : ascii) :
  jsonMarshal (Data ce) = s1 ++ String c s2 ->
  emptyJsonChar c = false ->
  LogError jsonMarshal sprintV msg callStack ce log =
  (Returns tt,
   (log ++ [mkLogRecord LevelError msg
              [ AttrString "callStack" callStack;
                AttrString "fileName" (FileName ce);
                AttrString "funcName" (FuncName ce);
                AttrInt "lineNo" (LineNo ce);
                AttrString "errorData" (jsonMarshal (Data ce)) ]])%list).
Proof.
  intros Hjson Hc. unfold LogError, logErrorData.
  rewrite Hjson, (isEmptyJson_outside s1 s2 c Hc). reflexivity.
Qed.

(** X19. When the JSON text of the payload is only brackets, braces and
    commas, [LogError] logs the [%v] text instead; if that text starts with
    an opening bracket, its first and its last character are removed, the
    last one whatever it is. *)
Theorem LogError_strips_brackets
    (msg callStack : string) (ce : CommonError) (log : list LogRecord)
    (body : string) (last : ascii) :
  isEmptyJson (jsonMarshal (Data ce)) = true ->
  sprintV (Data ce) = String "[" (body ++ String last "") ->
  LogError jsonMarshal sprintV msg callStack ce log =
  (Returns tt,
   (log ++ [mkLogRecord LevelError msg
              [ AttrString "callStack" callStack;
                AttrString "fileName" (FileName ce);
                AttrString "funcName" (FuncName ce);
                AttrInt "lineNo" (LineNo ce);
                AttrString "errorData" body ]])%list).
Proof.
  intros Hjson Htext. unfold LogError, logErrorData.
  rewrite Hjson, Htext.
  cbn [Ascii.eqb Bool.eqb String.length].
  rewrite length_app_one.
  cbn [Nat.ltb Nat.leb Nat.sub String.substring].
  rewrite Nat.sub_0_r, substring_all_but_last. reflexivity.
Qed.

(** X20. When the JSON text of the payload is only brackets, braces and
    commas and its [%v] text is empty, or is the opening bracket alone,
    [LogError] panics (an index or a slice bound out of range) and nothing
    reaches the logger. *)
Theorem LogError_panics_on_short_text
    (msg callStack : string) (ce : CommonError) (log : list LogRecord) :
  isEmptyJson (jsonMarshal (Data ce)) = true ->
  sprintV (Data ce) = "" \/ sprintV (Data ce) = "[" ->
  LogError jsonMarshal sprintV msg callStack ce log = (Panics, log).
Proof.
  intros Hjson [Htext|Htext]; unfold LogError, logErrorData;
    rewrite Hjson, Htext; reflexivity.
Qed.

End LoggingProperties.

Lemma LogError_logs_json_witness :
  LogError exampleJsonMarshal exampleSprintV "add failed" "ctrl.Add"
    (exampleCommonError DataNil) [] =
  (Returns tt,
   [mkLogRecord LevelError "add failed"
      [ AttrString "callStack" "ctrl.Add";
        AttrString "fileName" "jobStatus.go";
        AttrString "funcName" "jobStatus.NewJobStatus";
        AttrInt "lineNo" 12;
        AttrString "errorData" "null" ]]).
Proof.
  apply (LogError_logs_json exampleJsonMarshal exampleSprintV "add failed" "ctrl.Add"
           (exampleCommonError DataNil) [] "" "ull" "n"%char); reflexivity.
Defined.

Lemma LogError_strips_brackets_witness :
  LogError exampleJsonMarshal exampleSprintV "add failed" "ctrl.Add"
    (exampleCommonError (DataJobStatus exampleRecord)) [] =
  (Returns tt,
   [mkLogRecord LevelError "add failed"
      [ AttrString "callStack" "ctrl.Add";
        AttrString "fileName" "jobStatus.go";
        AttrString "funcName" "jobStatus.NewJobStatus";
        AttrInt "lineNo" 12;
        AttrString "errorData" "props error timestamp error" ]]).
Proof.
  apply (LogError_strips_brackets exampleJsonMarshal exampleSprintV "add failed"
           "ctrl.Add" (exampleCommonError (DataJobStatus exampleRecord)) []
           "props error timestamp error" "]"%char); reflexivity.
Defined.

Lemma LogError_panics_on_short_text_witness :
  LogError exampleJsonMarshal exampleSprintV "get failed" "ctrl.Get"
    (exampleCommonError (DataRows (mkRows None []))) [] = (Panics, [])
  /\ LogError exampleJsonMarshal exampleSprintV "get failed" "ctrl.Get"
       (exampleCommonError (DataMap ∅)) [] = (Panics, []).
Proof.
  split.
  - apply (LogError_panics_on_short_text exampleJsonMarshal exampleSprintV
             "get failed" "ctrl.Get"
             (exampleCommonError (DataRows (mkRows None []))) []);
      [reflexivity | left; reflexivity].
  - apply (LogError_panics_on_short_text exampleJsonMarshal exampleSprintV
             "get failed" "ctrl.Get" (exampleCommonError (DataMap ∅)) []);
      [reflexivity | right; reflexivity].
Defined.

(** ** Module initialisation *)

Section InitProperties.

Variable runtimeCaller : CallSite -> option Frame.
Variable ErrRepoNoDsn : error.
Variable ErrcdRepoNoDsn : string.
Variable storage : Storage.
Variable UseCases : Type.
Variable Controllers : Type.
Variable NewUseCases : RepoRef -> UseCases.
Variable NewControllers : UseCases -> Controllers.

(** X21. [Init] never panics and returns all or nothing: either the
    repository, the use cases and the controllers with a nil error, the
    repository then holding an open handle and the statements of
    [NewRepoDB]; or three nils with the error of [Open], the repository then
    holding no handle.  It fails exactly when the URL is empty or the driver
    refuses to open the connection. *)
Theorem Init_all_or_nothing (pgUrl : string) (log : list LogRecord) (cs : list Call) :
  exists (res : InitResult UseCases Controllers) (st : State) (log' : list LogRecord),
    Init runtimeCaller ErrRepoNoDsn ErrcdRepoNoDsn storage UseCases Controllers
      NewUseCases NewControllers pgUrl log cs = (Returns res, st, log')
    /\ ((initErr _ _ res = None
         /\ initRepo _ _ res = Some TheRepo
         /\ initUseCases _ _ res = Some (NewUseCases TheRepo)
         /\ initControllers _ _ res = Some (NewControllers (NewUseCases TheRepo))
         /\ repo st = withDB (NewRepoDB pgUrl) (Some (List.length cs))
         /\ pgUrl <> "" /\ openResult storage cs "pgx" pgUrl = None)
        \/ (exists err : error,
               initErr _ _ res = Some err
               /\ fst (Open runtimeCaller ErrRepoNoDsn ErrcdRepoNoDsn storage
                         (mkState (NewRepoDB pgUrl) cs)) = Returns (Some err)
               /\ initRepo _ _ res = None
               /\ initUseCases _ _ res = None
               /\ initControllers _ _ res = None
               /\ repo st = NewRepoDB pgUrl
               /\ (pgUrl = "" \/ openResult storage cs "pgx" pgUrl <> None))).
Proof.
  unfold Init. rewrite Open_run. cbn [repo calls DSN NewRepoDB].
  destruct (String.eqb pgUrl "") eqn:Hurl.
  - apply string_eqb_empty in Hurl.
    do 3 eexists. split; [reflexivity |]. right.
    eexists. cbn. repeat split. left; exact Hurl.
  - assert (Hne : pgUrl <> "") by (intros ->; discriminate Hurl).
    destruct (openResult storage cs "pgx" pgUrl) as [err|] eqn:Hopen.
    + do 3 eexists. split; [reflexivity |]. right.
      eexists. cbn. repeat split. right; discriminate.
    + do 3 eexists. split; [reflexivity |]. left.
      cbn. repeat split; assumption.
Qed.

(** X22. [Init] with an empty URL fails with the no-DSN error without
    calling the storage, and the logger has received, in this order, the two
    progress messages of the steps taken and the error record that carries
    the returned error; the messages of the steps not taken are absent. *)
Theorem Init_without_url (log : list LogRecord) (cs : list Call) :
  let err := NewCommonError (runtimeCaller SiteOpenNoDsn) (Some ErrRepoNoDsn)
               ErrcdRepoNoDsn DataNil in
  Init runtimeCaller ErrRepoNoDsn ErrcdRepoNoDsn storage UseCases Controllers
    NewUseCases NewControllers "" log cs =
  (Returns (mkInitResult UseCases Controllers None None None (Some err)),
   mkState (NewRepoDB "") cs,
   (log ++ [ logInfo "create repo";
             logInfo "open database";
             mkLogRecord LevelError "database connection failed"
               [AttrError "err" err] ])%list).
Proof.
  cbv zeta. unfold Init. rewrite Open_run. cbn [repo DSN NewRepoDB String.eqb].
  rewrite <- !app_assoc. reflexivity.
Qed.

(** X23. When [Init] succeeds, the logger has received the four progress
    messages in the order of the steps and no error record, the storage was
    called once, to open the connection, and the repository is ready: a
    following [GetByJobId] does not panic and sends its query on the handle
    [Init] opened. *)
Theorem Init_success_ready
    (PgErrToCommon : error -> string)
    (newJobStatus : JobStatusDto -> JobStatus * option error)
    (pgUrl : string) (log : list LogRecord) (cs : list Call) (jobId : JobIdType) :
  pgUrl <> "" ->
  openResult storage cs "pgx" pgUrl = None ->
  let started := Init runtimeCaller ErrRepoNoDsn ErrcdRepoNoDsn storage
                   UseCases Controllers NewUseCases NewControllers pgUrl log cs in
  let st := snd (fst started) in
  let read := GetByJobId runtimeCaller PgErrToCommon newJobStatus storage jobId st in
  snd started =
  (log ++ [ logInfo "create repo"; logInfo "open database";
            logInfo "create usecases"; logInfo "create controllers" ])%list
  /\ calls st = (cs ++ [CallOpen "pgx" pgUrl])%list
  /\ fst read <> Panics
  /\ exists tail : list Call,
       calls (snd read) =
       (cs ++ CallOpen "pgx" pgUrl
           :: CallQuery (List.length cs)
                (sqlSelect (NewRepoDB pgUrl) ++ sqlWhereJobId (NewRepoDB pgUrl))
                [DbText jobId]
           :: tail)%list.
Proof.
  intros Hurl Hopen. cbv zeta. unfold Init. rewrite Open_run.
  cbn [repo calls DSN NewRepoDB].
  destruct (String.eqb pgUrl "") eqn:Heq.
  { apply string_eqb_empty in Heq. contradiction. }
  rewrite Hopen. cbn [fst snd calls].
  split; [rewrite <- !app_assoc; reflexivity |].
  split; [reflexivity |].
  rewrite GetByJobId_run.
  cbn [repo calls DB withDB sqlSelect sqlWhereJobId NewRepoDB]. cbv zeta.
  destruct (queryResult storage _ _ _ _) as [rs|derr].
  - destruct (rowsToDomain _ _ _) as [data [e|]]; cbn [fst snd calls];
      (split; [discriminate |]); exists [CallRowsClose];
      rewrite <- !app_assoc; reflexivity.
  - cbn [fst snd calls]. split; [discriminate |]. exists [].
    rewrite <- !app_assoc. reflexivity.
Qed.

End InitProperties.

Lemma Init_success_ready_witness :
  let started := Init exampleCaller ErrRepoOther ErrcdRepoOther emptyStorage
                   unit unit (fun _ => tt) (fun _ => tt) "postgres://slo" [] [] in
  let st := snd (fst started) in
  let read := GetByJobId exampleCaller examplePgErrToCommon exampleNewJobStatus
                emptyStorage "J1" st in
  snd started =
  [ logInfo "create repo"; logInfo "open database";
    logInfo "create usecases"; logInfo "create controllers" ]
  /\ calls st = [CallOpen "pgx" "postgres://slo"]
  /\ fst read <> Panics
  /\ exists tail : list Call,
       calls (snd read) =
       CallOpen "pgx" "postgres://slo"
       :: CallQuery 0
            (sqlSelect (NewRepoDB "postgres://slo") ++
             sqlWhereJobId (NewRepoDB "postgres://slo"))
            [DbText "J1"]
       :: tail.
Proof.
  apply (Init_success_ready exampleCaller ErrRepoOther ErrcdRepoOther emptyStorage
           unit unit (fun _ => tt) (fun _ => tt) examplePgErrToCommon
           exampleNewJobStatus "postgres://slo" [] [] "J1").
  - discriminate.
  - reflexivity.
Defined.
